(** * Hubspace light-control server: a shallow embedding of [main.py]

    The development follows the source file top to bottom:
    - [PyStr]: the Python string primitives the server relies on
      ([str.upper], [str.lower], [str.replace('#','')], [str.startswith],
      [int(str)], the format spec [02X]);
    - [Vendor]: the opaque vendor client (devices, attributes, exceptions,
      and the calls that reach it);
    - [Translator]: the in-line attribute encodings of
      [control_device_thread] and [get_device_attributes];
    - [Device]: [get_device_attributes] and [control_device_thread];
    - [Pool]: the thread fan-out of [control_lights], as a transition
      system and as an executable scheduler;
    - [Server]: [verify_token], [initialize_hubspace], [control_lights],
      [health_check], and [POST /control] as the framework serves it;
    - [Outcome], [SpecWords], [Sample]: vocabulary for the statements, the
      translator as the specification words it, and a small installation;
    - the properties, module by module.

    Python [str] values are modelled as [string] (ASCII text); [int] as [Z];
    [Optional[T]] as [option T]; an exception of class [Exception] as the
    text [str(e)] it carries; [time.time()] as an integer clock reading. *)

From Stdlib Require Import ZArith List String Ascii Bool Lia Permutation.
From Stdlib Require Import Relations.Relation_Operators.
From Stdlib Require Import DecimalString.
From Stdlib Require Import Sorting.Sorted.
Import ListNotations.
Open Scope string_scope.
Open Scope Z_scope.

(** ** Python string primitives *)
Module PyStr.

Definition code (c : ascii) : N := N_of_ascii c.

Definition is_lower (c : ascii) : bool := ((97 <=? code c) && (code c <=? 122))%N.
Definition is_upper (c : ascii) : bool := ((65 <=? code c) && (code c <=? 90))%N.
Definition is_digit (c : ascii) : bool := ((48 <=? code c) && (code c <=? 57))%N.

Definition upper_char (c : ascii) : ascii :=
  if is_lower c then ascii_of_N (code c - 32) else c.
Definition lower_char (c : ascii) : ascii :=
  if is_upper c then ascii_of_N (code c + 32) else c.

Fixpoint map_str (f : ascii -> ascii) (s : string) : string :=
  match s with
  | EmptyString => EmptyString
  | String c r => String (f c) (map_str f r)
  end.

(** [s.upper()] and [s.lower()] on ASCII text.  The case mapping of
    characters outside ASCII, which can change the length of a string, is
    outside the model. *)
Definition upper : string -> string := map_str upper_char.
Definition lower : string -> string := map_str lower_char.

(** [s.replace(c, '')]: every occurrence of the character is removed. *)
Fixpoint remove_char (x : ascii) (s : string) : string :=
  match s with
  | EmptyString => EmptyString
  | String c r => if Ascii.eqb c x then remove_char x r else String c (remove_char x r)
  end.

(** [s.startswith(c)] for a one-character prefix. *)
Definition startswith_char (x : ascii) (s : string) : bool :=
  match s with
  | String c _ => Ascii.eqb c x
  | EmptyString => false
  end.

(** Truthiness of a [str]: the empty string is falsy. *)
Definition truthy (s : string) : bool :=
  match s with EmptyString => false | _ => true end.

(** Truthiness of an [Optional[str]]: [None] and [''] are falsy. *)
Definition otruthy (o : option string) : bool :=
  match o with Some s => truthy s | None => false end.

(** *** The format spec [02X] *)

Definition hex_digit (d : Z) : ascii :=
  match d with
  | 0 => "0" | 1 => "1" | 2 => "2" | 3 => "3" | 4 => "4" | 5 => "5"
  | 6 => "6" | 7 => "7" | 8 => "8" | 9 => "9" | 10 => "A" | 11 => "B"
  | 12 => "C" | 13 => "D" | 14 => "E" | _ => "F"
  end%char.

(** Upper-case hexadecimal digits of a non-negative integer, most significant
    first; [fuel] bounds the number of digits. *)
Fixpoint hex_digits (fuel : nat) (n : Z) : string :=
  match fuel with
  | O => String (hex_digit (n mod 16)) EmptyString
  | S f =>
      if n <? 16 then String (hex_digit n) EmptyString
      else hex_digits f (n / 16) ++ String (hex_digit (n mod 16)) EmptyString
  end.

Definition hex_of (n : Z) : string := hex_digits (Z.to_nat (Z.log2 n)) n.

(** [format(n, '02X')]: upper-case hex, zero-padded to width 2; the sign of a
    negative number counts towards the width and precedes the padding. *)
Definition format_02X (n : Z) : string :=
  if n <? 0 then String "-"%char (hex_of (- n))
  else
    let h := hex_of n in
    if (String.length h <? 2)%nat then String "0"%char h else h.

(** *** [int(s)] on a string, base 10 *)

(** Characters [str.strip] treats as white space in the ASCII range. *)
Definition is_space (c : ascii) : bool :=
  let n := code c in
  (((9 <=? n) && (n <=? 13)) || ((28 <=? n) && (n <=? 32)))%N.

Fixpoint lstrip (s : string) : string :=
  match s with
  | String c r => if is_space c then lstrip r else s
  | EmptyString => EmptyString
  end.

(** Right strip: a suffix made of white space only is dropped. *)
Fixpoint rstrip (s : string) : string :=
  match s with
  | EmptyString => EmptyString
  | String c r =>
      match rstrip r with
      | EmptyString => if is_space c then EmptyString else String c EmptyString
      | r' => String c r'
      end
  end.

Definition digit_val (c : ascii) : Z := Z.of_N (code c) - 48.

(** Digits of a decimal literal after its first digit: single underscores
    are allowed between digits; [acc] is the value read so far. *)
Fixpoint int_digits (acc : Z) (s : string) : option Z :=
  match s with
  | EmptyString => Some acc
  | String c r =>
      if is_digit c then int_digits (10 * acc + digit_val c) r
      else if Ascii.eqb c "_"%char then
        match r with
        | String d r' =>
            if is_digit d then int_digits (10 * acc + digit_val d) r' else None
        | EmptyString => None
        end
      else None
  end.

Definition int_unsigned (s : string) : option Z :=
  match s with
  | String c r => if is_digit c then int_digits (digit_val c) r else None
  | EmptyString => None
  end.

(** [int(s)]: [None] stands for [ValueError]. *)
Definition int_of_str (s : string) : option Z :=
  match rstrip (lstrip s) with
  | String "-"%char r => option_map Z.opp (int_unsigned r)
  | String "+"%char r => int_unsigned r
  | t => int_unsigned t
  end.

(** [str(n)] for a natural number, as an f-string prints it. *)
Definition str_of_nat (n : nat) : string :=
  NilEmpty.string_of_uint (Nat.to_uint n).

End PyStr.

(** ** The vendor client

    The [hubspace] package is an external collaborator.  A device object is
    modelled by what its methods answer during one request: [getName],
    [getID] and [getDeviceClass] are plain getters ([None] and [''] are not
    told apart, the source only tests their truthiness); [getAttributes] and
    [writeAction] either answer or raise. *)
Module Vendor.

(** An exception of class [Exception], identified with [str(e)]. *)
Definition exn := string.

(** One entry of [device.getAttributes()]: a dict with keys ['id'] and
    ['value']. *)
Record attribute := mkAttribute {
  attr_id : Z;
  attr_value : string
}.

Record device := mkDevice {
  getName : string;
  getID : string;
  getDeviceClass : string;
  getAttributes : exn + list attribute;
  writeAction : Z -> string -> option exn
}.

(** Calls that reach the vendor, in the order they are made. *)
Inductive event :=
| EvLogin
| EvGetDevices
| EvGetAttributes (device_id : string)
| EvWriteAction (device_id : string) (attribute_id : Z) (value : string).

(** What the vendor answers to [Hubspace(email, password)] followed by
    [getDevices()] during one call of [initialize_hubspace]. *)
Inductive cloud :=
| LoginFails (e : exn)
| ListFails (e : exn)
| Devices (all_devices : list device).

End Vendor.

(** ** Attribute translation, as written in-line in the source *)
Module Translator.

(** [power_attr['value'] == '1'] decides the reported power state. *)
Definition decodePower (value : string) : string :=
  if String.eqb value "1" then "ON" else "OFF".

(** [brightness_hex = f"{brightness:02X}"] *)
Definition encodeBrightness (brightness : Z) : string :=
  PyStr.format_02X brightness.

(** [int(brightness_attr['value'])]; [None] is the [ValueError]. *)
Definition decodeBrightness (value : string) : option Z :=
  PyStr.int_of_str value.

(** [color_clean = color.replace('#', '').upper()] *)
Definition color_clean (color : string) : string :=
  PyStr.upper (PyStr.remove_char "#"%char color).

(** The guard [if len(color_clean) == 6]: the value written to attribute 4,
    or [None] when the write is skipped. *)
Definition encodeColor (color : string) : option string :=
  let c := color_clean color in
  if (String.length c =? 6)%nat then Some c else None.

(** [f"#{color_attr['value']}"] *)
Definition decodeColor (value : string) : string := "#" ++ value.

End Translator.

(** ** Per-device work: [get_device_attributes], [control_device_thread] *)
Module Device.
Import Vendor.

(** The pydantic model [DeviceResult]. *)
Record DeviceResult := mkDeviceResult {
  name : string;
  device_id : string;
  success : bool;
  message : string;
  power_state : option string;
  brightness : option Z;
  color : option string
}.

(** The dict returned by [get_device_attributes]: each of the keys
    ['power'], ['brightness'], ['color'] is present or absent. *)
Record current_attrs := mkAttrs {
  attrs_power : option string;
  attrs_brightness : option Z;
  attrs_color : option string
}.

Definition no_attrs : current_attrs := mkAttrs None None None.

(** [next((attr for attr in attributes if attr['id'] == i), None)] *)
Definition find_attr (i : Z) (attributes : list attribute) : option attribute :=
  find (fun a => attr_id a =? i) attributes.

(** The body of the [try] block of [get_device_attributes], given the list
    [device.getAttributes()] returned; [inl] is the exception [int] raises
    on a brightness value that is not a decimal literal. *)
Definition read_attrs (attributes : list attribute) : exn + current_attrs :=
  let power :=
    option_map (fun a => Translator.decodePower (attr_value a))
               (find_attr 1 attributes) in
  let color :=
    option_map (fun a => Translator.decodeColor (attr_value a))
               (find_attr 4 attributes) in
  match find_attr 2 attributes with
  | None => inr (mkAttrs power None color)
  | Some a =>
      match Translator.decodeBrightness (attr_value a) with
      | Some b => inr (mkAttrs power (Some b) color)
      | None =>
          inl ("invalid literal for int() with base 10: '" ++ attr_value a ++ "'")
      end
  end.

(** [get_device_attributes]: any exception of the read is caught here and
    turned into the empty dict. *)
Definition get_device_attributes (d : device) : current_attrs :=
  match getAttributes d with
  | inl _ => no_attrs
  | inr attributes =>
      match read_attrs attributes with
      | inl _ => no_attrs
      | inr r => r
      end
  end.

(** *** A state-and-exception monad for the body of a worker

    The state is the [DeviceResult] under construction (mutated in place by
    the source, so that an exception leaves the fields already assigned) and
    the vendor calls made so far. *)
Definition st : Type := DeviceResult * list event.
Definition M (A : Type) : Type := st -> (exn + A) * st.

Definition ret {A} (a : A) : M A := fun s => (inr a, s).
Definition bind {A B} (m : M A) (k : A -> M B) : M B :=
  fun s => match m s with
           | (inr a, s') => k a s'
           | (inl e, s') => (inl e, s')
           end.
Definition raise {A} (e : exn) : M A := fun s => (inl e, s).

(** [try: body except Exception as e: handler(e)] *)
Definition try_except (body : M unit) (handler : exn -> M unit) : M unit :=
  fun s => match body s with
           | (inr a, s') => (inr a, s')
           | (inl e, s') => handler e s'
           end.

Definition update (f : DeviceResult -> DeviceResult) : M unit :=
  fun s => (inr tt, (f (fst s), snd s)).
Definition emit (ev : event) : M unit :=
  fun s => (inr tt, (fst s, (snd s ++ [ev])%list)).
Definition when (b : bool) (m : M unit) : M unit := if b then m else ret tt.

Notation "x <- c1 ;; c2" := (bind c1 (fun x => c2))
  (at level 61, c1 at next level, right associativity).
Notation "c1 ;; c2" := (bind c1 (fun _ => c2))
  (at level 61, right associativity).

Definition set_success (b : bool) (r : DeviceResult) : DeviceResult :=
  mkDeviceResult (name r) (device_id r) b (message r)
                 (power_state r) (brightness r) (color r).
Definition set_message (m : string) (r : DeviceResult) : DeviceResult :=
  mkDeviceResult (name r) (device_id r) (success r) m
                 (power_state r) (brightness r) (color r).
Definition set_power_state (p : option string) (r : DeviceResult) : DeviceResult :=
  mkDeviceResult (name r) (device_id r) (success r) (message r)
                 p (brightness r) (color r).
Definition set_brightness (b : option Z) (r : DeviceResult) : DeviceResult :=
  mkDeviceResult (name r) (device_id r) (success r) (message r)
                 (power_state r) b (color r).
Definition set_color (c : option string) (r : DeviceResult) : DeviceResult :=
  mkDeviceResult (name r) (device_id r) (success r) (message r)
                 (power_state r) (brightness r) c.

(** [device.writeAction(i, v)]: the call reaches the vendor, then answers or
    raises. *)
Definition do_writeAction (d : device) (i : Z) (v : string) : M unit :=
  emit (EvWriteAction (getID d) i v) ;;
  match writeAction d i v with
  | Some e => raise e
  | None => ret tt
  end.

(** [current_attrs = get_device_attributes(device)] *)
Definition do_get_device_attributes (d : device) : M current_attrs :=
  emit (EvGetAttributes (getID d)) ;;
  ret (get_device_attributes d).

(** The [# Control power] block. *)
Definition control_power (d : device) (action : option string) : M unit :=
  match action with
  | Some a =>
      when (PyStr.truthy a)
        (if String.eqb (PyStr.upper a) "ON" then
           do_writeAction d 1 "01" ;;
           update (set_power_state (Some "ON"))
         else if String.eqb (PyStr.upper a) "OFF" then
           do_writeAction d 1 "00" ;;
           update (set_power_state (Some "OFF"))
         else ret tt)
  | None => ret tt
  end.

(** The [# Control brightness (ID 2)] block. *)
Definition control_brightness (d : device) (b : option Z) : M unit :=
  match b with
  | Some v =>
      let brightness_hex := Translator.encodeBrightness v in
      do_writeAction d 2 brightness_hex ;;
      update (set_brightness (Some v))
  | None => ret tt
  end.

(** The [# Control color (ID 4)] block. *)
Definition control_color (d : device) (c : option string) : M unit :=
  match c with
  | Some col =>
      when (PyStr.truthy col)
        (match Translator.encodeColor col with
         | Some color_clean =>
             do_writeAction d 4 color_clean ;;
             update (set_color (Some ("#" ++ color_clean)))
         | None => ret tt
         end)
  | None => ret tt
  end.

(** The [try] block of [control_device_thread]. *)
Definition control_body (d : device) (action : option string)
    (b : option Z) (c : option string) : M unit :=
  current <- do_get_device_attributes d ;;
  update (set_power_state (attrs_power current)) ;;
  update (set_brightness (attrs_brightness current)) ;;
  update (set_color (attrs_color current)) ;;
  control_power d action ;;
  control_brightness d b ;;
  control_color d c ;;
  update (set_success true) ;;
  update (set_message ("Successfully controlled " ++ getName d)).

(** The [except Exception as e] block. *)
Definition control_handler (d : device) (e : exn) : M unit :=
  update (set_message ("Error controlling " ++ getName d ++ ": " ++ e)) ;;
  update (set_success false).

(** [control_device_thread(device, action, brightness, color)], run from a
    fresh result; it returns the result and the vendor calls it made. *)
Definition control_device_run (d : device) (action : option string)
    (b : option Z) (c : option string) : DeviceResult * list event :=
  let result := mkDeviceResult (getName d) (getID d) false "" None None None in
  snd (try_except (control_body d action b c) (control_handler d) (result, [])).

Definition control_device_thread (d : device) (action : option string)
    (b : option Z) (c : option string) : DeviceResult :=
  fst (control_device_run d action b c).

Definition control_device_events (d : device) (action : option string)
    (b : option Z) (c : option string) : list event :=
  snd (control_device_run d action b c).

End Device.

(** ** The thread fan-out of [control_lights]

    The main thread starts one worker per target, in order; each worker runs
    [control_device_thread] on its device and appends the result to the
    shared list [results]; the main thread then joins every worker.  A worker
    may finish while later ones are not yet started, and workers finish in
    any order, so the fan-out is a transition system.  The append is atomic
    (one [list.append] under the interpreter lock); the vendor calls of a
    worker are logged as one block when it finishes. *)
Module Pool.
Import Vendor Device.
Local Open Scope list_scope.

Record pool := mkPool {
  todo : list device;        (* targets the [for] loop has not reached yet *)
  running : list device;     (* started workers that have not appended yet *)
  results : list DeviceResult;
  trace : list event
}.

Section Dispatch.

Variable action : option string.
Variable brightness : option Z.
Variable color : option string.

Definition worker (d : device) : DeviceResult :=
  control_device_thread d action brightness color.
Definition worker_events (d : device) : list event :=
  control_device_events d action brightness color.

Inductive step : pool -> pool -> Prop :=
| step_start : forall d t r res tr,
    step (mkPool (d :: t) r res tr) (mkPool t (r ++ [d]) res tr)
| step_finish : forall t l1 d l2 res tr,
    step (mkPool t (l1 ++ d :: l2) res tr)
         (mkPool t (l1 ++ l2) (res ++ [worker d]) (tr ++ worker_events d)).

Definition steps : pool -> pool -> Prop := clos_refl_trans_1n pool step.

(** All workers started and joined. *)
Definition joined (p : pool) : Prop := todo p = [] /\ running p = [].

Definition start (targets : list device) : pool := mkPool targets [] [] [].

(** [res] is a results list the fan-out over [targets] can end with. *)
Definition dispatch_outcome (targets : list device)
    (res : list DeviceResult) : Prop :=
  exists tr, steps (start targets) (mkPool [] [] res tr).

(** *** An executable scheduler

    A schedule is a list of choices; with [n] workers running, choice [k]
    (taken modulo the number of enabled moves) lets worker [k] finish, or
    lets the main thread start the next worker when [k] is [n]. *)
Definition moves (p : pool) : nat :=
  (List.length (running p) + match todo p with [] => 0 | _ => 1 end)%nat.

Definition pick (k : nat) (p : pool) : option pool :=
  match moves p with
  | O => None
  | n =>
      let i := (k mod n)%nat in
      match nth_error (running p) i with
      | Some d =>
          Some (mkPool (todo p)
                       (firstn i (running p) ++ skipn (S i) (running p))
                       (results p ++ [worker d])
                       (trace p ++ worker_events d))
      | None =>
          match todo p with
          | d :: t => Some (mkPool t (running p ++ [d]) (results p) (trace p))
          | [] => None
          end
      end
  end.

(** When the schedule runs out, the remaining workers finish in the order
    they were (or are) started. *)
Definition drain (p : pool) : pool :=
  let rest := running p ++ todo p in
  mkPool [] [] (results p ++ map worker rest)
         (trace p ++ flat_map worker_events rest).

Fixpoint run_pool (sched : list nat) (p : pool) : pool :=
  match sched with
  | [] => drain p
  | k :: sched' =>
      match pick k p with
      | Some p' => run_pool sched' p'
      | None => p
      end
  end.

(** The results already appended followed by those still owed. *)
Definition content (p : pool) : list DeviceResult :=
  results p ++ map worker (running p) ++ map worker (todo p).

(** Number of moves left before the join completes. *)
Definition measure (p : pool) : nat :=
  (2 * List.length (todo p) + List.length (running p))%nat.

(** The fan-out and join of [control_lights] under a schedule. *)
Definition dispatch (sched : list nat) (targets : list device)
    : list DeviceResult * list event :=
  let p := run_pool sched (start targets) in (results p, trace p).

End Dispatch.
End Pool.

(** ** The HTTP service *)
Module Server.
Import Vendor.

(** The pydantic model [LightControlRequest]; [brightness] carries the
    constraints [ge=0, le=100]. *)
Record LightControlRequest := mkRequest {
  name : option string;
  action : option string;
  brightness : option Z;
  color : option string
}.

(** The pydantic model [ControlResponse]; [timestamp] is the clock reading
    [time.time()]. *)
Record ControlResponse := mkControlResponse {
  success : bool;
  message : string;
  results : list Device.DeviceResult;
  timestamp : Z
}.

(** What the client receives: an [HTTPException] raised by the application,
    the framework's rejection of a body that violates the request model
    (status 422), or the handler's return value (status 200). *)
Inductive response :=
| HTTPException (status_code : Z) (detail : string)
| RequestValidationError
| Returned (body : ControlResponse).

Definition status_of (r : response) : Z :=
  match r with
  | HTTPException s _ => s
  | RequestValidationError => 422
  | Returned _ => 200
  end.

(** The module-level globals. [hubspace_client] only records whether a
    client object is held; it is never read by the handlers. *)
Record globals := mkGlobals {
  hubspace_client : bool;
  light_devices : list device
}.

(** [verify_token]: [inl] is the raised [HTTPException]. *)
Definition verify_token (SECRET_TOKEN : string) (authorization : option string)
    : (Z * string) + bool :=
  match authorization with
  | Some a =>
      if negb (PyStr.truthy a) || negb (String.eqb a ("Bearer " ++ SECRET_TOKEN))
      then inl (401, "Invalid or missing authorization token")
      else inr true
  | None => inl (401, "Invalid or missing authorization token")
  end.

(** [name and dev_type and dev_type.lower() == 'light'] *)
Definition is_light (d : device) : bool :=
  PyStr.truthy (getName d) && PyStr.truthy (getDeviceClass d)
  && String.eqb (PyStr.lower (getDeviceClass d)) "light".

(** [initialize_hubspace]: its return value, the globals it leaves and the
    vendor calls it made. *)
Definition initialize_hubspace (v : cloud) (g : globals)
    : bool * globals * list event :=
  match v with
  | LoginFails _ => (false, g, [EvLogin])
  | ListFails _ =>
      (false, mkGlobals true (light_devices g), [EvLogin; EvGetDevices])
  | Devices all_devices =>
      (true, mkGlobals true (filter is_light all_devices),
       [EvLogin; EvGetDevices])
  end.

(** The [# Validate request] block of [control_lights]: the first
    [HTTPException] raised, if any. *)
Definition validate (request : LightControlRequest) : option (Z * string) :=
  if negb (PyStr.otruthy (action request)
           || match brightness request with Some _ => true | None => false end
           || PyStr.otruthy (color request))
  then Some (400, "At least one control parameter must be specified")
  else if match action request with
          | Some a => PyStr.truthy a
                      && negb (String.eqb (PyStr.upper a) "ON"
                               || String.eqb (PyStr.upper a) "OFF")
          | None => false
          end
  then Some (400, "Action must be 'ON' or 'OFF'")
  else if match brightness request with
          | Some b => (b <? 0) || (b >? 100)
          | None => false
          end
  then Some (400, "Brightness must be between 0 and 100")
  else if match color request with
          | Some c => PyStr.truthy c && negb (PyStr.startswith_char "#"%char c)
          | None => false
          end
  then Some (400, "Color must be in hex format (e.g., '#FF0000')")
  else None.

(** The [# Filter devices by name if specified] block: the targets, or the
    404 raised on an empty match. *)
Definition resolve (request : LightControlRequest) (lights : list device)
    : (Z * string) + list device :=
  match name request with
  | Some n =>
      if PyStr.truthy n then
        let target_devices :=
          filter (fun d => String.eqb (PyStr.lower (getName d)) (PyStr.lower n))
                 lights in
        match target_devices with
        | [] => inl (404, "No light found with name '" ++ n ++ "'")
        | _ => inr target_devices
        end
      else inr lights
  | None => inr lights
  end.

(** [sum(1 for r in results if r.success)] *)
Definition success_count (rs : list Device.DeviceResult) : nat :=
  List.length (filter Device.success rs).

(** The [# Prepare response] block. *)
Definition prepare_response (rs : list Device.DeviceResult) (now : Z)
    : ControlResponse :=
  let total_count := List.length rs in
  mkControlResponse
    (Nat.eqb (success_count rs) total_count)
    ("Controlled " ++ PyStr.str_of_nat (success_count rs) ++ "/"
       ++ PyStr.str_of_nat total_count ++ " devices successfully")
    rs now.

(** The handler [control_lights], entered once the dependency and the
    request model have accepted the request.  [v] is what the vendor answers
    to this request's re-authentication, [sched] the interleaving of the
    workers, [now] the clock at completion. *)
Definition control_lights (request : LightControlRequest) (v : cloud)
    (sched : list nat) (now : Z) (g : globals)
    : response * globals * list event :=
  let '(ok, g', tr) := initialize_hubspace v g in
  if negb ok then
    (HTTPException 500 "Failed to authenticate with Hubspace", g', tr)
  else
    match validate request with
    | Some (s, d) => (HTTPException s d, g', tr)
    | None =>
        match resolve request (light_devices g') with
        | inl (s, d) => (HTTPException s d, g', tr)
        | inr target_devices =>
            let '(rs, tr') :=
              Pool.dispatch (action request) (brightness request)
                            (color request) sched target_devices in
            (Returned (prepare_response rs now), g', (tr ++ tr')%list)
        end
    end.

(** The constraints of the request model: [brightness] has [ge=0, le=100]. *)
Definition model_accepts (body : LightControlRequest) : bool :=
  match brightness body with
  | Some b => (0 <=? b) && (b <=? 100)
  | None => true
  end.

(** [POST /control] as the framework serves it, for a request whose body is
    a JSON object with fields of the declared types: the dependency
    [Depends(verify_token)] runs first, then the body is validated against
    the constraints of [LightControlRequest], then the handler is called. *)
Definition post_control (SECRET_TOKEN : string) (authorization : option string)
    (body : LightControlRequest) (v : cloud) (sched : list nat) (now : Z)
    (g : globals) : response * globals * list event :=
  match verify_token SECRET_TOKEN authorization with
  | inl (s, d) => (HTTPException s d, g, [])
  | inr _ =>
      if model_accepts body then control_lights body v sched now g
      else (RequestValidationError, g, [])
  end.

(** The dict returned by [health_check]. *)
Record HealthResponse := mkHealth {
  status : string;
  hubspace_connected : bool;
  lights_available : nat;
  health_timestamp : Z
}.

(** [GET /health] *)
Definition health_check (v : cloud) (now : Z) (g : globals)
    : HealthResponse * globals * list event :=
  let '(connected, g', tr) := initialize_hubspace v g in
  (mkHealth "healthy" connected (List.length (light_devices g')) now, g', tr).

End Server.

(** ** The other endpoints of [main.py] *)
Module Endpoints.
Import Vendor Server.

(** One entry of the list built by [get_lights]. *)
Record LightEntry := mkLight {
  light_name : string;
  light_device_id : string;
  light_power : string;
  light_brightness : option Z;
  light_color : option string
}.

(** What [GET /lights] answers: the raised [HTTPException], or the dict with
    keys ['lights'] and ['count']. *)
Inductive lights_response :=
| LightsError (status_code : Z) (detail : string)
| LightsReturned (lights : list LightEntry) (count : nat).

(** The body of the [for device in light_devices] loop of [get_lights];
    [attrs.get('power', 'UNKNOWN')] supplies the default. *)
Definition light_entry (d : device) : LightEntry :=
  let attrs := Device.get_device_attributes d in
  mkLight (getName d) (getID d)
          (match Device.attrs_power attrs with
           | Some p => p
           | None => "UNKNOWN"
           end)
          (Device.attrs_brightness attrs)
          (Device.attrs_color attrs).

(** [get_lights]: no dependency guards it; the loop reads the lights one
    after the other. *)
Definition get_lights (v : cloud) (g : globals)
    : lights_response * globals * list event :=
  let '(ok, g', tr) := initialize_hubspace v g in
  if negb ok then
    (LightsError 500 "Failed to authenticate with Hubspace", g', tr)
  else
    let lights := map light_entry (light_devices g') in
    (LightsReturned lights (List.length lights), g',
     (tr ++ map (fun d => EvGetAttributes (getID d)) (light_devices g'))%list).

(** The dict returned by [root]. *)
Record RootInfo := mkRoot {
  root_message : string;
  root_version : string;
  root_lights_available : nat;
  root_endpoints : list (string * string)
}.

(** [GET /]: reads the global list, calls nothing. *)
Definition root (g : globals) : RootInfo :=
  mkRoot "Hubspace Light Control API" "1.0.0"
         (List.length (light_devices g))
         [("GET /", "API information");
          ("GET /lights", "List all available lights");
          ("POST /control", "Control lights (requires authorization)")].

(** [startup_event]: [Some e] is the exception it raises. *)
Definition startup_event (v : cloud) (g : globals)
    : option exn * globals * list event :=
  let '(ok, g', tr) := initialize_hubspace v g in
  if negb ok then (Some "Failed to initialize Hubspace client", g', tr)
  else (None, g', tr).

(** The slice [s[:n]]. *)
Fixpoint slice_to (n : nat) (s : string) : string :=
  match n, s with
  | S m, String c r => String c (slice_to m r)
  | _, _ => EmptyString
  end.

(** The dict returned by [test_environment]. *)
Record EnvReport := mkEnvReport {
  email_set : bool;
  password_set : bool;
  email_length : nat;
  password_length : nat;
  email_preview : string
}.

(** [GET /test-env], given the two configuration strings. *)
Definition test_environment (HUBSPACE_EMAIL HUBSPACE_PASSWORD : string)
    : EnvReport :=
  mkEnvReport
    (PyStr.truthy HUBSPACE_EMAIL)
    (PyStr.truthy HUBSPACE_PASSWORD)
    (if PyStr.truthy HUBSPACE_EMAIL then String.length HUBSPACE_EMAIL else 0%nat)
    (if PyStr.truthy HUBSPACE_PASSWORD then String.length HUBSPACE_PASSWORD
     else 0%nat)
    (if PyStr.truthy HUBSPACE_EMAIL && (10 <? String.length HUBSPACE_EMAIL)%nat
     then slice_to 10 HUBSPACE_EMAIL ++ "..."
     else HUBSPACE_EMAIL).

End Endpoints.

(** ** The one-shot script [hubspace_control.py] *)
Module Script.
Import Vendor.
Local Open Scope list_scope.

(** [control_device(device, power_state, device_name)]: its return value
    and the vendor call it makes.  Any [power_state] other than ["ON"]
    takes the [else] branch. *)
Definition control_device (d : device) (power_state : string)
    (device_name : string) : bool * list event :=
  if String.eqb power_state "ON" then
    (match writeAction d 1 "01" with None => true | Some _ => false end,
     [EvWriteAction (getID d) 1 "01"])
  else
    (match writeAction d 1 "00" with None => true | Some _ => false end,
     [EvWriteAction (getID d) 1 "00"]).

(** The vendor call of the worker started for [d]. *)
Definition thread_events (power_state : string) (d : device) : list event :=
  snd (control_device d power_state (getName d)).

(** One fan-out of the script: the lights not yet reached by the [for]
    loop, the workers started and not yet finished, the calls made. *)
Record threads := mkThreads {
  waiting : list device;
  active : list device;
  log : list event
}.

Inductive fan_step (power_state : string) : threads -> threads -> Prop :=
| fan_start : forall d t r tr,
    fan_step power_state (mkThreads (d :: t) r tr) (mkThreads t (r ++ [d]) tr)
| fan_finish : forall t l1 d l2 tr,
    fan_step power_state (mkThreads t (l1 ++ d :: l2) tr)
         (mkThreads t (l1 ++ l2) (tr ++ thread_events power_state d)).

(** [tr] is a sequence of calls the fan-out over [lights], joined, can
    have made. *)
Definition fanout (power_state : string) (lights : list device)
    (tr : list event) : Prop :=
  clos_refl_trans_1n threads (fan_step power_state)
    (mkThreads lights [] []) (mkThreads [] [] tr).

(** The order in which workers finish under a schedule: choice [k] lets
    the [k]-th unfinished worker (modulo their number) finish; when the
    schedule runs out the others finish in the order they were started. *)
Fixpoint completion_order (sched : list nat) (l : list device) : list device :=
  match sched with
  | [] => l
  | k :: sched' =>
      match l with
      | [] => []
      | _ =>
          let i := (k mod List.length l)%nat in
          match nth_error l i with
          | Some d => d :: completion_order sched' (firstn i l ++ skipn (S i) l)
          | None => l
          end
      end
  end.

Definition fanout_events (power_state : string) (sched : list nat)
    (lights : list device) : list event :=
  flat_map (thread_events power_state) (completion_order sched lights).

(** How the script ends: an uncaught exception of the client constructor
    (outside the [try]), an exception reported by the outer [except],
    [exit(1)], or the last [print]. *)
Inductive outcome :=
| Crashed (e : exn)
| Reported (e : exn)
| Exited (code : Z)
| Completed.

(** The per-device [try] of the state display: one attribute read, whose
    exception is caught. *)
Definition read_state (d : device) : list event := [EvGetAttributes (getID d)].

(** The script, given what the vendor answers and the interleavings of its
    two fan-outs. *)
Definition script (v : cloud) (sched_on sched_off : list nat)
    : outcome * list event :=
  match v with
  | LoginFails e => (Crashed e, [EvLogin])
  | ListFails e => (Reported e, [EvLogin; EvGetDevices])
  | Devices devices =>
      match devices with
      | [] => (Exited 1, [EvLogin; EvGetDevices])
      | _ =>
          let light_devices := filter Server.is_light devices in
          match light_devices with
          | [] => (Exited 1, [EvLogin; EvGetDevices])
          | _ =>
              (Completed,
               [EvLogin; EvGetDevices]
                 ++ fanout_events "ON" sched_on light_devices
                 ++ fanout_events "OFF" sched_off light_devices
                 ++ flat_map read_state light_devices)
          end
      end
  end.

End Script.

(** ** Vocabulary for statements about requests *)
Module Requests.
Import Server.

(** The request with its action and color upper-cased. *)
Definition upper_cased (body : LightControlRequest) : LightControlRequest :=
  mkRequest (name body)
            (option_map PyStr.upper (action body))
            (brightness body)
            (option_map PyStr.upper (color body)).

(** The statuses [POST /control] can answer with. *)
Definition control_statuses : list Z := [200; 400; 401; 404; 422; 500].

End Requests.

(** ** Vocabulary for statements about a worker *)
Module Outcome.
Import Vendor.

(** The power write requested by [action], if any, is answered. *)
Definition power_write_ok (d : device) (action : option string) : Prop :=
  match action with
  | Some a =>
      (PyStr.upper a = "ON" -> writeAction d 1 "01" = None) /\
      (PyStr.upper a = "OFF" -> writeAction d 1 "00" = None)
  | None => True
  end.

(** The brightness write requested, if any, is answered. *)
Definition brightness_write_ok (d : device) (b : option Z) : Prop :=
  match b with
  | Some v => writeAction d 2 (Translator.encodeBrightness v) = None
  | None => True
  end.

(** The attribute read of [get_device_attributes] raises [e]: either
    [getAttributes] itself, or [int] on the brightness value. *)
Definition read_raises (d : device) (e : exn) : Prop :=
  getAttributes d = inl e \/
  exists attributes,
    getAttributes d = inr attributes /\ Device.read_attrs attributes = inl e.

(** Vendor calls made on a device, as opposed to the session calls of
    [initialize_hubspace]. *)
Definition device_event (ev : event) : bool :=
  match ev with
  | EvGetAttributes _ | EvWriteAction _ _ _ => true
  | EvLogin | EvGetDevices => false
  end.

(** The same device, with another answer to [getAttributes]. *)
Definition with_attributes (d : device) (r : exn + list attribute) : device :=
  mkDevice (getName d) (getID d) (getDeviceClass d) r (writeAction d).

End Outcome.

(** ** Definitions that follow the words of the specification *)
Module SpecWords.

(** "after stripping an optional leading [#]" *)
Definition strip_leading_hash (color : string) : string :=
  match color with
  | String "#"%char r => r
  | _ => color
  end.

Definition hex_digit_value (c : ascii) : option Z :=
  if PyStr.is_digit c then Some (PyStr.digit_val c)
  else if ((65 <=? PyStr.code c) && (PyStr.code c <=? 70))%N
       then Some (Z.of_N (PyStr.code c) - 55)
       else None.

Fixpoint hex_value_from (acc : Z) (s : string) : option Z :=
  match s with
  | EmptyString => Some acc
  | String c r =>
      match hex_digit_value c with
      | Some v => hex_value_from (16 * acc + v) r
      | None => None
      end
  end.

(** "two-digit uppercase hex": the integer such a string denotes. *)
Definition two_digit_hex (s : string) : option Z :=
  match s with
  | String _ (String _ EmptyString) => hex_value_from 0 s
  | _ => None
  end.

(** "uppercase hex": every character is one of [0-9A-F]. *)
Definition all_upper_hex (s : string) : bool :=
  forallb (fun c => match hex_digit_value c with Some _ => true | None => false end)
          (list_ascii_of_string s).

Definition opt_eqb (x y : option Z) : bool :=
  match x, y with
  | Some a, Some b => a =? b
  | None, None => true
  | _, _ => false
  end.

(** The properties of the brightness encoding at [b], as one boolean test:
    two characters, upper-case hex, denoting [b], and read back as [b] by
    the decoder exactly when [b <= 9]. *)
Definition brightness_check (b : Z) : bool :=
  Nat.eqb (String.length (Translator.encodeBrightness b)) 2
  && all_upper_hex (Translator.encodeBrightness b)
  && opt_eqb (two_digit_hex (Translator.encodeBrightness b)) (Some b)
  && Bool.eqb (opt_eqb (Translator.decodeBrightness
                          (Translator.encodeBrightness b)) (Some b))
              (b <=? 9).

End SpecWords.

(** ** A small installation used in the examples *)
Module Sample.
Import Vendor.

Definition SECRET_TOKEN : string := "SECRET123".

Definition answers : Z -> string -> option exn := fun _ _ => None.

(** A light that reports its state and accepts every write. *)
Definition lamp : device :=
  mkDevice "Lamp" "dev-1" "light"
    (inr [mkAttribute 1 "1"; mkAttribute 2 "50"; mkAttribute 4 "FF0000"])
    answers.

(** A light whose attribute read times out. *)
Definition desk : device :=
  mkDevice "Desk" "dev-2" "Light" (inl "read timed out") answers.

(** A light that refuses brightness writes. *)
Definition porch : device :=
  mkDevice "Porch" "dev-3" "light"
    (inr [mkAttribute 1 "0"])
    (fun i _ => if i =? 2 then Some "write refused" else None).

(** A device that is not a light. *)
Definition fan : device :=
  mkDevice "Fan" "dev-4" "fan" (inr []) answers.

Definition fresh : Server.globals := Server.mkGlobals false [].

End Sample.

(** * Properties *)

(** ** The embedding on concrete inputs *)
Module Examples.
Import Vendor.

Example format_02X_values :
  PyStr.format_02X 0 = "00" /\ PyStr.format_02X 10 = "0A" /\
  PyStr.format_02X 100 = "64" /\ PyStr.format_02X 255 = "FF" /\
  PyStr.format_02X 256 = "100" /\ PyStr.format_02X (-5) = "-5".
Proof. repeat split; reflexivity. Qed.

Example int_of_str_values :
  PyStr.int_of_str "50" = Some 50 /\ PyStr.int_of_str " 0_7 " = Some 7 /\
  PyStr.int_of_str "-12" = Some (-12) /\ PyStr.int_of_str "0A" = None /\
  PyStr.int_of_str "" = None /\ PyStr.int_of_str "1__0" = None.
Proof. repeat split; reflexivity. Qed.

(** [format_02X] prints the hexadecimal numeral of its argument. *)
Example format_02X_reads_back :
  forallb (fun n => SpecWords.opt_eqb
                      (SpecWords.hex_value_from 0 (PyStr.format_02X n)) (Some n))
          (map Z.of_nat (seq 0 5000)) = true.
Proof. vm_compute. reflexivity. Qed.

Example color_clean_values :
  Translator.color_clean "#ff00aa" = "FF00AA" /\
  Translator.encodeColor "#ff00aa" = Some "FF00AA" /\
  Translator.encodeColor "#12#3456" = Some "123456" /\
  Translator.encodeColor "#FFF" = None.
Proof. repeat split; reflexivity. Qed.

Example read_lamp :
  Device.get_device_attributes Sample.lamp
    = Device.mkAttrs (Some "ON") (Some 50) (Some "#FF0000").
Proof. reflexivity. Qed.

(** A brightness value that is not a decimal literal loses the whole read. *)
Example read_hex_brightness :
  Device.get_device_attributes
    (Outcome.with_attributes Sample.lamp
       (inr [mkAttribute 1 "1"; mkAttribute 2 "0A"]))
    = Device.no_attrs.
Proof. reflexivity. Qed.

Example control_lamp :
  Device.control_device_run Sample.lamp (Some "off") (Some 30) (Some "#00ff00")
    = (Device.mkDeviceResult "Lamp" "dev-1" true "Successfully controlled Lamp"
         (Some "OFF") (Some 30) (Some "#00FF00"),
       [EvGetAttributes "dev-1"; EvWriteAction "dev-1" 1 "00";
        EvWriteAction "dev-1" 2 "1E"; EvWriteAction "dev-1" 4 "00FF00"]).
Proof. reflexivity. Qed.

(** The worker stops at the write that raises; the fields assigned before
    it keep their new values. *)
Example control_porch :
  Device.control_device_run Sample.porch (Some "ON") (Some 30) (Some "#00ff00")
    = (Device.mkDeviceResult "Porch" "dev-3" false
         "Error controlling Porch: write refused"
         (Some "ON") None None,
       [EvGetAttributes "dev-3"; EvWriteAction "dev-3" 1 "01";
        EvWriteAction "dev-3" 2 "1E"]).
Proof. reflexivity. Qed.

(** One failing device among three: two successes, one failure, status 200
    and an aggregate [success = false]. *)
Example three_devices_one_failure :
  let out := Server.post_control Sample.SECRET_TOKEN (Some "Bearer SECRET123")
               (Server.mkRequest None None (Some 40) None)
               (Devices [Sample.lamp; Sample.fan; Sample.desk; Sample.porch])
               [] 0 Sample.fresh in
  Server.status_of (fst (fst out)) = 200 /\
  match fst (fst out) with
  | Server.Returned resp =>
      Server.success resp = false /\
      Server.message resp = "Controlled 2/3 devices successfully" /\
      map Device.success (Server.results resp) = [true; true; false]
  | _ => False
  end.
Proof. cbv zeta. split; [reflexivity|]. repeat split. Qed.

Example named_device_not_found :
  fst (fst (Server.post_control Sample.SECRET_TOKEN (Some "Bearer SECRET123")
              (Server.mkRequest (Some "Kitchen Lamp") (Some "ON") None None)
              (Devices [Sample.lamp; Sample.porch]) [] 0 Sample.fresh))
    = Server.HTTPException 404 "No light found with name 'Kitchen Lamp'".
Proof. reflexivity. Qed.

End Examples.

(** ** The fan-out: every interleaving yields a permutation *)
Module PoolFacts.
Import Vendor Device Pool.
Local Open Scope list_scope.
Local Open Scope nat_scope.

Section Dispatch.

Variable action : option string.
Variable brightness : option Z.
Variable color : option string.

Local Abbreviation worker := (Pool.worker action brightness color).
Local Abbreviation worker_events := (Pool.worker_events action brightness color).
Local Abbreviation step := (Pool.step action brightness color).
Local Abbreviation steps := (Pool.steps action brightness color).
Local Abbreviation dispatch_outcome := (Pool.dispatch_outcome action brightness color).
Local Abbreviation pick := (Pool.pick action brightness color).
Local Abbreviation drain := (Pool.drain action brightness color).
Local Abbreviation run_pool := (Pool.run_pool action brightness color).
Local Abbreviation content := (Pool.content action brightness color).

Lemma steps_refl p : steps p p.
Proof. apply rt1n_refl. Qed.

Lemma steps_step p q r : step p q -> steps q r -> steps p r.
Proof. intros H1 H2. eapply rt1n_trans; eassumption. Qed.

Lemma steps_trans p q r : steps p q -> steps q r -> steps p r.
Proof.
  intros H1 H2. induction H1 as [|x y z Hxy _ IH]; [assumption|].
  eapply steps_step; [exact Hxy | apply IH, H2].
Qed.

Lemma step_measure p q : step p q -> measure q < measure p.
Proof.
  intros H. destruct H; unfold Pool.measure; simpl;
    rewrite ?length_app; simpl; lia.
Qed.

Lemma step_content p q : step p q -> Permutation (content p) (content q).
Proof.
  intros H. destruct H as [d t r res tr | t l1 d l2 res tr];
    unfold Pool.content; simpl.
  - rewrite map_app. simpl. rewrite <- app_assoc. simpl. reflexivity.
  - rewrite !map_app. simpl. rewrite <- !app_assoc. simpl.
    apply Permutation_app_head. symmetry. apply Permutation_middle.
Qed.

Lemma steps_content p q : steps p q -> Permutation (content p) (content q).
Proof.
  induction 1 as [|x y z Hxy _ IH]; [reflexivity|].
  etransitivity; [apply step_content; eassumption | exact IH].
Qed.

(** The main thread can start every remaining worker before any finishes. *)
Lemma steps_start_all t : forall r res tr,
  steps (mkPool t r res tr) (mkPool [] (r ++ t) res tr).
Proof.
  induction t as [|d t IH]; intros r res tr.
  - rewrite app_nil_r. apply steps_refl.
  - eapply steps_step; [apply step_start|].
    replace (r ++ d :: t) with ((r ++ [d]) ++ t)
      by (rewrite <- app_assoc; reflexivity).
    apply IH.
Qed.

(** Started workers can finish in the order they were started. *)
Lemma steps_finish_fifo r : forall res tr,
  steps (mkPool [] r res tr)
        (mkPool [] [] (res ++ map worker r) (tr ++ flat_map worker_events r)).
Proof.
  induction r as [|d r IH]; intros res tr; simpl.
  - rewrite !app_nil_r. apply steps_refl.
  - eapply steps_step; [apply (step_finish _ _ _ [] [] d r)|]. simpl.
    replace (res ++ worker d :: map worker r)
      with ((res ++ [worker d]) ++ map worker r)
      by (rewrite <- app_assoc; reflexivity).
    rewrite (app_assoc tr). apply IH.
Qed.

(** Started workers can finish in any order. *)
Lemma steps_finish_any out : forall r res tr,
  Permutation out (map worker r) ->
  exists tr', steps (mkPool [] r res tr) (mkPool [] [] (res ++ out) tr').
Proof.
  induction out as [|x out IH]; intros r res tr Hp.
  - apply Permutation_nil in Hp. destruct r; [|discriminate].
    exists tr. rewrite app_nil_r. apply steps_refl.
  - assert (Hin : In x (map worker r))
      by (eapply Permutation_in; [exact Hp | left; reflexivity]).
    apply in_map_iff in Hin. destruct Hin as [d [Hd Hin]].
    apply in_split in Hin. destruct Hin as [l1 [l2 ->]]. subst x.
    rewrite map_app in Hp. simpl in Hp.
    apply Permutation_cons_app_inv in Hp. rewrite <- map_app in Hp.
    destruct (IH (l1 ++ l2) (res ++ [worker d]) (tr ++ worker_events d) Hp)
      as [tr' Htr'].
    exists tr'. eapply steps_step; [apply step_finish|].
    rewrite <- app_assoc in Htr'. exact Htr'.
Qed.

Lemma outcome_permutation targets res :
  dispatch_outcome targets res -> Permutation res (map worker targets).
Proof.
  intros [tr H]. apply steps_content in H. unfold Pool.content in H. simpl in H.
  rewrite !app_nil_r in H. symmetry. exact H.
Qed.

Lemma permutation_outcome targets res :
  Permutation res (map worker targets) -> dispatch_outcome targets res.
Proof.
  intros Hp. destruct (steps_finish_any res targets [] [] Hp) as [tr' H].
  exists tr'. eapply steps_trans; [apply (steps_start_all targets [] [] [])|].
  exact H.
Qed.

(** *** The executable scheduler against the transition system *)

Lemma remove_nth_split {A} (l1 l2 : list A) (d : A) :
  firstn (List.length l1) (l1 ++ d :: l2)
    ++ skipn (S (List.length l1)) (l1 ++ d :: l2) = l1 ++ l2.
Proof.
  rewrite firstn_app, firstn_all, Nat.sub_diag. cbn [firstn].
  rewrite app_nil_r.
  replace (l1 ++ d :: l2) with ((l1 ++ [d]) ++ l2)
    by (rewrite <- app_assoc; reflexivity).
  replace (S (List.length l1)) with (List.length (l1 ++ [d]))
    by (rewrite length_app; cbn [List.length]; lia).
  rewrite skipn_app, skipn_all, Nat.sub_diag. reflexivity.
Qed.

Lemma pick_step k p q : pick k p = Some q -> step p q.
Proof.
  unfold Pool.pick. destruct p as [t r res tr].
  cbn [todo running results trace]. cbv zeta.
  destruct (moves (mkPool t r res tr)) as [|n]; [discriminate|].
  set (i := k mod S n).
  destruct (nth_error r i) as [d|] eqn:Hn.
  - intros H. injection H as <-.
    destruct (nth_error_split r i Hn) as [l1 [l2 [Hr Hl]]].
    subst r. rewrite <- Hl.
    match goal with
    | |- context [firstn _ _ ++ ?b] =>
        change b with (skipn (S (List.length l1)) (l1 ++ d :: l2))
    end.
    rewrite remove_nth_split. apply step_finish.
  - destruct t as [|d t]; [discriminate|].
    intros H. injection H as <-. apply step_start.
Qed.

Lemma pick_none k p : pick k p = None -> todo p = [] /\ running p = [].
Proof.
  unfold Pool.pick. destruct p as [t r res tr]. unfold moves.
  cbn [todo running results trace]. cbv zeta.
  destruct (List.length r + match t with [] => 0 | _ :: _ => 1 end)
    as [|n] eqn:Hm.
  - intros _. destruct r; [|discriminate]. destruct t; [|discriminate]. auto.
  - assert (Hlt : k mod S n < S n) by (apply Nat.mod_upper_bound; lia).
    destruct (nth_error r (k mod S n)) eqn:Hn; [discriminate|].
    apply nth_error_None in Hn.
    destruct t as [|d' t]; [lia | discriminate].
Qed.

Lemma step_pick p q : step p q -> exists k, pick k p = Some q.
Proof.
  intros H. destruct H as [d t r res tr | t l1 d l2 res tr].
  - exists (List.length r). unfold Pool.pick, moves.
    cbn [todo running results trace]. cbv zeta.
    replace (List.length r + 1) with (S (List.length r)) by lia.
    rewrite Nat.mod_small by lia.
    assert (Hn : nth_error r (List.length r) = None)
      by (apply nth_error_None; lia).
    rewrite Hn. reflexivity.
  - exists (List.length l1). unfold Pool.pick, moves.
    cbn [todo running results trace]. cbv zeta.
    destruct (List.length (l1 ++ d :: l2)
              + match t with [] => 0 | _ :: _ => 1 end) as [|n] eqn:Hm.
    + rewrite length_app in Hm. cbn [List.length] in Hm. lia.
    + assert (Hlt : List.length l1 < S n)
        by (rewrite length_app in Hm; cbn [List.length] in Hm; lia).
      rewrite Nat.mod_small by exact Hlt.
      rewrite nth_error_app2 by lia. rewrite Nat.sub_diag.
      cbn [nth_error]. rewrite remove_nth_split. reflexivity.
Qed.

Lemma drain_steps p : steps p (drain p).
Proof.
  destruct p as [t r res tr]. unfold drain. simpl.
  eapply steps_trans; [apply steps_start_all | apply steps_finish_fifo].
Qed.

Lemma run_pool_steps sched : forall p, steps p (run_pool sched p).
Proof.
  induction sched as [|k sched IH]; intros p; simpl.
  - apply drain_steps.
  - destruct (pick k p) as [q|] eqn:Hq; [|apply steps_refl].
    eapply steps_step; [eapply pick_step; exact Hq | apply IH].
Qed.

Lemma run_pool_joined sched : forall p, joined (run_pool sched p).
Proof.
  induction sched as [|k sched IH]; intros p; simpl.
  - split; reflexivity.
  - destruct (pick k p) as [q|] eqn:Hq; [apply IH|].
    apply pick_none in Hq. exact Hq.
Qed.

Lemma steps_run_pool p q :
  steps p q -> joined q -> exists sched, run_pool sched p = q.
Proof.
  induction 1 as [p | p p' q Hstep _ IH]; intros Hj.
  - exists [0]. simpl. destruct (pick 0 p) as [q|] eqn:Hq; [|reflexivity].
    apply pick_step, step_measure in Hq.
    destruct p as [t r res tr]. destruct Hj as [Ht Hr]. simpl in Ht, Hr.
    subst. unfold Pool.measure in Hq. simpl in Hq. lia.
  - destruct (IH Hj) as [sched Hs]. destruct (step_pick _ _ Hstep) as [k Hk].
    exists (k :: sched). simpl. rewrite Hk. exact Hs.
Qed.

(** Every schedule yields an outcome of the transition system... *)
Lemma dispatch_sound sched targets :
  dispatch_outcome targets
    (fst (Pool.dispatch action brightness color sched targets)).
Proof.
  unfold Pool.dispatch. simpl.
  pose proof (run_pool_steps sched (start targets)) as Hs.
  pose proof (run_pool_joined sched (start targets)) as [Ht Hr].
  destruct (run_pool sched (start targets)) as [t r res tr]. simpl in *.
  subst. exists tr. exact Hs.
Qed.

(** ... and every outcome is the one of some schedule. *)
Lemma dispatch_complete targets res :
  dispatch_outcome targets res ->
  exists sched, fst (Pool.dispatch action brightness color sched targets) = res.
Proof.
  intros [tr H].
  destruct (steps_run_pool _ _ H) as [sched Hs]; [split; reflexivity|].
  exists sched. unfold Pool.dispatch. rewrite Hs. reflexivity.
Qed.

Lemma dispatch_permutation sched targets :
  Permutation (fst (Pool.dispatch action brightness color sched targets))
              (map worker targets).
Proof. apply outcome_permutation, dispatch_sound. Qed.

End Dispatch.
End PoolFacts.

(** ** The attribute encodings *)
Module TranslatorFacts.
Import Translator.

Lemma opt_eqb_eq x y : SpecWords.opt_eqb x y = true <-> x = y.
Proof.
  destruct x as [a|], y as [b|]; simpl; split; intros H;
    try discriminate; try reflexivity.
  - apply Z.eqb_eq in H. subst. reflexivity.
  - injection H as ->. apply Z.eqb_refl.
Qed.

(** A boolean property checked on [0 .. n-1] holds on that interval. *)
Lemma forall_below (P : Z -> bool) (n : nat) :
  forallb P (map Z.of_nat (seq 0 n)) = true ->
  forall b, 0 <= b < Z.of_nat n -> P b = true.
Proof.
  intros H b Hb. rewrite forallb_forall in H. apply H.
  apply in_map_iff. exists (Z.to_nat b). split; [lia|].
  apply in_seq. lia.
Qed.

Lemma brightness_check_all :
  forallb SpecWords.brightness_check (map Z.of_nat (seq 0 101)) = true.
Proof. vm_compute. reflexivity. Qed.

(** C2 (as stated, refuted): brightness 16 is written as ["10"], which the
    decoder of [get_device_attributes] reads back as 10; brightness 10 is
    written as ["0A"], which it cannot read at all. *)
Lemma C2_roundtrip_fails_at_16 :
  0 <= 16 <= 100 /\
  encodeBrightness 16 = "10" /\
  decodeBrightness (encodeBrightness 16) = Some 10 /\
  SpecWords.opt_eqb (decodeBrightness (encodeBrightness 16)) (Some 16) = false /\
  decodeBrightness (encodeBrightness 10) = None.
Proof. repeat split; try reflexivity; lia. Qed.

(** C2 (amended): for every brightness [b] in [0,100] the encoder yields a
    two-character upper-case hex string that denotes [b]; the decoder, which
    reads a decimal literal, gives [b] back from that string exactly when
    [b <= 9]. *)
Theorem C2_brightness_encoding (b : Z) :
  0 <= b <= 100 ->
  String.length (encodeBrightness b) = 2%nat /\
  SpecWords.all_upper_hex (encodeBrightness b) = true /\
  SpecWords.two_digit_hex (encodeBrightness b) = Some b /\
  (decodeBrightness (encodeBrightness b) = Some b <-> b <= 9).
Proof.
  intros Hb.
  assert (H : SpecWords.brightness_check b = true)
    by (apply (forall_below _ 101 brightness_check_all); simpl; lia).
  unfold SpecWords.brightness_check in H.
  apply andb_prop in H. destruct H as [H H4].
  apply andb_prop in H. destruct H as [H H3].
  apply andb_prop in H. destruct H as [H1 H2].
  apply Nat.eqb_eq in H1. apply opt_eqb_eq in H3. apply Bool.eqb_prop in H4.
  repeat split; try assumption.
  - intros E. apply opt_eqb_eq in E. rewrite E in H4. symmetry in H4.
    apply Z.leb_le in H4. exact H4.
  - intros E. apply Z.leb_le in E. rewrite E in H4. apply opt_eqb_eq. exact H4.
Qed.

Lemma C2_brightness_encoding_witness :
  0 <= 100 <= 100 /\
  String.length (encodeBrightness 100) = 2%nat /\
  SpecWords.all_upper_hex (encodeBrightness 100) = true /\
  SpecWords.two_digit_hex (encodeBrightness 100) = Some 100 /\
  (decodeBrightness (encodeBrightness 100) = Some 100 <-> 100 <= 9).
Proof. split; [lia | apply (C2_brightness_encoding 100); lia]. Defined.

End TranslatorFacts.

(** ** One worker *)
Module DeviceFacts.
Import Vendor Device Outcome.

(** Unfold the monad and split on every answer the run depends on. *)
Ltac unfold_run :=
  unfold control_device_thread, control_device_events, control_device_run,
    try_except, control_body, control_handler, control_power,
    control_brightness, control_color, do_get_device_attributes,
    do_writeAction, when, bind, ret, raise, update, emit;
  cbn [fst snd].

Ltac split_run :=
  repeat match goal with
         | |- context [match ?x with _ => _ end] =>
             lazymatch x with
             | context [match _ with _ => _ end] => fail
             | _ => destruct x eqn:?
             end
         | |- context [if ?x then _ else _] =>
             lazymatch x with
             | context [if _ then _ else _] => fail
             | _ => destruct x eqn:?
             end
         end; cbn [fst snd].

Lemma encodeColor_skips c :
  String.length (Translator.color_clean c) <> 6%nat ->
  Translator.encodeColor c = None.
Proof.
  intros H. unfold Translator.encodeColor. cbv zeta.
  destruct (Nat.eqb_spec (String.length (Translator.color_clean c)) 6);
    [contradiction | reflexivity].
Qed.

Lemma control_color_skips d c :
  String.length (Translator.color_clean c) <> 6%nat ->
  control_color d (Some c) = control_color d None.
Proof.
  intros H. unfold control_color. rewrite (encodeColor_skips c H).
  destruct (PyStr.truthy c); reflexivity.
Qed.

Lemma map_str_length f s : String.length (PyStr.map_str f s) = String.length s.
Proof. induction s as [|c s IH]; simpl; [reflexivity | rewrite IH; reflexivity]. Qed.

(** For an ASCII color with no [#] beyond an optional leading one, the
    length the guard tests is the length "after stripping an optional
    leading [#]". *)
Lemma color_clean_length_leading c :
  PyStr.remove_char "#" (SpecWords.strip_leading_hash c)
    = SpecWords.strip_leading_hash c ->
  String.length (Translator.color_clean c)
    = String.length (SpecWords.strip_leading_hash c).
Proof.
  intros H. unfold Translator.color_clean, PyStr.upper.
  rewrite map_str_length.
  assert (E : PyStr.remove_char "#" c
              = PyStr.remove_char "#" (SpecWords.strip_leading_hash c)).
  { destruct c as [|a c]; [reflexivity|].
    destruct a as [[] [] [] [] [] [] [] []]; reflexivity. }
  rewrite E, H. reflexivity.
Qed.

(** C3 (as stated, refuted): the color ["#FFF"] has three characters once its
    leading [#] is stripped, yet the worker reports success and the only
    vendor call is the attribute read. *)
Lemma C3_short_color_is_not_reported :
  Nat.eqb (String.length (SpecWords.strip_leading_hash "#FFF")) 6 = false /\
  success (control_device_thread Sample.lamp None None (Some "#FFF")) = true /\
  message (control_device_thread Sample.lamp None None (Some "#FFF"))
    = "Successfully controlled Lamp" /\
  control_device_events Sample.lamp None None (Some "#FFF")
    = [EvGetAttributes "dev-1"].
Proof. repeat split; reflexivity. Qed.

(** C3 (amended): a color whose cleaned form, [color.replace('#', '').upper()]
    (every [#] removed, then upper-cased: the string whose length the guard
    of the source tests), has a length other than 6 is never rejected: the
    encoder yields no value to write, nothing is raised, and the worker's
    result and vendor calls are those of a request without a color. *)
Theorem C3_bad_length_color_is_ignored d a b c :
  String.length (Translator.color_clean c) <> 6%nat ->
  Translator.encodeColor c = None /\
  control_device_run d a b (Some c) = control_device_run d a b None.
Proof.
  intros H. split; [apply encodeColor_skips, H|].
  unfold control_device_run, control_body.
  rewrite (control_color_skips d c H). reflexivity.
Qed.

Lemma C3_bad_length_color_is_ignored_witness :
  String.length (Translator.color_clean "#12345") <> 6%nat /\
  Translator.encodeColor "#12345" = None /\
  control_device_run Sample.lamp (Some "on") (Some 40) (Some "#12345")
    = control_device_run Sample.lamp (Some "on") (Some 40) None.
Proof.
  split; [vm_compute; discriminate|].
  apply (C3_bad_length_color_is_ignored Sample.lamp (Some "on") (Some 40) "#12345").
  vm_compute; discriminate.
Defined.

(** On the same device and request, a color whose cleaned form has six
    characters is written: the color block is reached, and the guard is what
    separates the two runs. *)
Example six_character_color_is_written :
  control_device_events Sample.lamp (Some "on") (Some 40) (Some "#123456")
    = (control_device_events Sample.lamp (Some "on") (Some 40) None
         ++ [EvWriteAction "dev-1" 4 "123456"])%list /\
  control_device_events Sample.lamp (Some "on") (Some 40) (Some "#12345")
    = control_device_events Sample.lamp (Some "on") (Some 40) None /\
  color (control_device_thread Sample.lamp (Some "on") (Some 40) (Some "#123456"))
    = Some "#123456" /\
  color (control_device_thread Sample.lamp (Some "on") (Some 40) (Some "#12345"))
    = Some "#FF0000".
Proof. repeat split; reflexivity. Qed.

(** A run without a color never writes attribute 4. *)
Lemma no_color_no_write_4 d a b v :
  ~ In (EvWriteAction (getID d) 4 v) (control_device_events d a b None).
Proof.
  unfold_run. split_run; cbn [app In]; intros H;
    repeat (destruct H as [H|H]; [discriminate H|]); exact H.
Qed.

(** When the requested power and brightness writes are answered, a run
    without a color succeeds and reports the color read before the call. *)
Lemma no_color_success d a b :
  power_write_ok d a -> brightness_write_ok d b ->
  success (control_device_thread d a b None) = true /\
  message (control_device_thread d a b None)
    = "Successfully controlled " ++ getName d /\
  color (control_device_thread d a b None)
    = attrs_color (get_device_attributes d).
Proof.
  unfold power_write_ok, brightness_write_ok. intros Hp Hb.
  unfold_run.
  destruct a as [a|]; [destruct (PyStr.truthy a)|];
    [destruct (String.eqb_spec (PyStr.upper a) "ON") as [E|_];
     [destruct Hp as [Hp _]; rewrite (Hp E)
     |destruct (String.eqb_spec (PyStr.upper a) "OFF") as [E|_];
      [destruct Hp as [_ Hp]; rewrite (Hp E)|]]| |];
    (destruct b as [v|]; [rewrite Hb|]); cbn; auto.
Qed.

(** C9 (as stated, refuted): the color ["#12#3456"] has seven characters once
    its leading [#] is stripped, and no other change is requested; yet the
    source removes every [#], finds six characters, writes ["123456"] to
    attribute 4 and replaces the color read before the call. *)
Lemma C9_interior_hash_color_is_written :
  Nat.eqb (String.length (SpecWords.strip_leading_hash "#12#3456")) 6 = false /\
  attrs_color (get_device_attributes Sample.lamp) = Some "#FF0000" /\
  color (control_device_thread Sample.lamp None None (Some "#12#3456"))
    = Some "#123456" /\
  control_device_events Sample.lamp None None (Some "#12#3456")
    = [EvGetAttributes "dev-1"; EvWriteAction "dev-1" 4 "123456"].
Proof. repeat split; reflexivity. Qed.

(** C9 (amended): when the cleaned form of the requested color,
    [color.replace('#', '').upper()] (every [#] removed, then upper-cased:
    the string whose length the guard of the source tests), has a length
    other than 6 and the other requested writes are answered, the worker
    still reports success with the "Successfully controlled" message, the
    color field keeps the value read before the call, and attribute 4 is
    never written. *)
Theorem C9_bad_length_color_keeps_success d a b c :
  String.length (Translator.color_clean c) <> 6%nat ->
  power_write_ok d a ->
  brightness_write_ok d b ->
  success (control_device_thread d a b (Some c)) = true /\
  message (control_device_thread d a b (Some c))
    = "Successfully controlled " ++ getName d /\
  color (control_device_thread d a b (Some c))
    = attrs_color (get_device_attributes d) /\
  (forall v, ~ In (EvWriteAction (getID d) 4 v)
                  (control_device_events d a b (Some c))).
Proof.
  intros Hc Hp Hb.
  assert (E : control_device_run d a b (Some c) = control_device_run d a b None).
  { unfold control_device_run, control_body.
    rewrite (control_color_skips d c Hc). reflexivity. }
  unfold control_device_thread, control_device_events. rewrite E.
  destruct (no_color_success d a b Hp Hb) as [H1 [H2 H3]].
  repeat split; try assumption.
  intros v. apply no_color_no_write_4.
Qed.

Lemma C9_bad_length_color_keeps_success_witness :
  success (control_device_thread Sample.lamp (Some "off") (Some 30) (Some "#ABCDEF0"))
    = true /\
  message (control_device_thread Sample.lamp (Some "off") (Some 30) (Some "#ABCDEF0"))
    = "Successfully controlled " ++ getName Sample.lamp /\
  color (control_device_thread Sample.lamp (Some "off") (Some 30) (Some "#ABCDEF0"))
    = attrs_color (get_device_attributes Sample.lamp) /\
  (forall v, ~ In (EvWriteAction (getID Sample.lamp) 4 v)
                  (control_device_events Sample.lamp (Some "off") (Some 30)
                                         (Some "#ABCDEF0"))).
Proof.
  apply (C9_bad_length_color_keeps_success Sample.lamp (Some "off") (Some 30) "#ABCDEF0").
  - vm_compute; discriminate.
  - simpl. split; reflexivity.
  - reflexivity.
Defined.

(** The verdict of a worker: either every write it attempted was answered
    and it reports success, or its last vendor call is a write that raised
    and the exception is the one its message records. *)
Lemma worker_verdict d a b c :
  (success (control_device_thread d a b c) = true /\
   message (control_device_thread d a b c)
     = "Successfully controlled " ++ getName d /\
   forall i v, In (EvWriteAction (getID d) i v) (control_device_events d a b c) ->
               writeAction d i v = None)
  \/
  (exists evs i v e,
     control_device_events d a b c = (evs ++ [EvWriteAction (getID d) i v])%list /\
     writeAction d i v = Some e /\
     success (control_device_thread d a b c) = false /\
     message (control_device_thread d a b c)
       = "Error controlling " ++ getName d ++ ": " ++ e).
Proof.
  unfold_run. split_run; cbn [app In set_success set_message success message];
    first
      [ left; split; [reflexivity|]; split; [reflexivity|];
        intros i v H;
        repeat (destruct H as [H|H];
                [first [discriminate H | inversion H; subst; assumption]|]);
        contradiction
      | right;
        (eexists [_] + eexists [_; _] + eexists [_; _; _]);
        do 3 eexists; (split; [reflexivity|]);
        (split; [eassumption|]); split; reflexivity ].
Qed.

(** A worker depends on its device only through the getters, the attributes
    read and the answers to its writes. *)
Lemma run_ext d d' a b c :
  getName d = getName d' -> getID d = getID d' ->
  get_device_attributes d = get_device_attributes d' ->
  (forall i v, writeAction d i v = writeAction d' i v) ->
  control_device_run d a b c = control_device_run d' a b c.
Proof.
  intros Hn Hi Hg Hw. unfold_run. rewrite Hn, Hi, Hg.
  destruct a as [a|], b as [v|], c as [c|];
    try destruct (Translator.encodeColor c);
    rewrite ?Hw; reflexivity.
Qed.

Lemma read_raises_no_attrs d e :
  read_raises d e -> get_device_attributes d = no_attrs.
Proof.
  unfold get_device_attributes.
  intros [H | [attributes [H1 H2]]]; [rewrite H | rewrite H1, H2]; reflexivity.
Qed.

(** An exception of the attribute read never reaches the worker's result. *)
Lemma read_failure_swallowed d a b c e :
  read_raises d e ->
  control_device_run d a b c
    = control_device_run (with_attributes d (inr [])) a b c.
Proof.
  intros H. apply run_ext; try reflexivity.
  rewrite (read_raises_no_attrs d e H). reflexivity.
Qed.

End DeviceFacts.

(** ** The batch *)
Module DispatchFacts.
Import Vendor Device Outcome.
Local Open Scope list_scope.

(** C1 (as stated, refuted): with targets [Lamp; Porch], the worker of Porch
    may append first; the results then come in the order [Porch; Lamp],
    which is not the order the targets were supplied in. *)
Lemma C1_completion_order_differs :
  Pool.dispatch_outcome (Some "ON") None None [Sample.lamp; Sample.porch]
    (fst (Pool.dispatch (Some "ON") None None [0; 1; 1; 0]%nat
                        [Sample.lamp; Sample.porch])) /\
  map name (fst (Pool.dispatch (Some "ON") None None [0; 1; 1; 0]%nat
                               [Sample.lamp; Sample.porch]))
    = ["Porch"; "Lamp"]%string /\
  map getName [Sample.lamp; Sample.porch] = ["Lamp"; "Porch"]%string.
Proof.
  split; [apply PoolFacts.dispatch_sound|]. split; reflexivity.
Qed.

(** C1 (amended): the fan-out over N targets always completes and returns
    exactly N results, one per target: the possible results lists are
    exactly the permutations of the per-target results.  Their order is the
    order in which the workers append, which is the order of the targets
    when the workers finish in the order they were started. *)
Theorem C1_dispatch_one_result_per_target a b c targets :
  (forall res, Pool.dispatch_outcome a b c targets res <->
               Permutation res (map (Pool.worker a b c) targets)) /\
  (forall res, Pool.dispatch_outcome a b c targets res ->
               List.length res = List.length targets) /\
  Pool.dispatch_outcome a b c targets (map (Pool.worker a b c) targets) /\
  (forall sched,
     Pool.dispatch_outcome a b c targets
       (fst (Pool.dispatch a b c sched targets)) /\
     List.length (fst (Pool.dispatch a b c sched targets))
       = List.length targets) /\
  fst (Pool.dispatch a b c [] targets) = map (Pool.worker a b c) targets.
Proof.
  assert (Hlen : forall res, Pool.dispatch_outcome a b c targets res ->
                             List.length res = List.length targets).
  { intros res H. apply PoolFacts.outcome_permutation in H.
    apply Permutation_length in H. rewrite length_map in H. exact H. }
  split; [|split; [exact Hlen|split; [|split]]].
  - intros res. split;
      [apply PoolFacts.outcome_permutation | apply PoolFacts.permutation_outcome].
  - apply PoolFacts.permutation_outcome. reflexivity.
  - intros sched.
    pose proof (PoolFacts.dispatch_sound a b c sched targets) as H.
    split; [exact H | apply Hlen, H].
  - reflexivity.
Qed.

(** C4 (as stated, refuted): the attribute read of Desk raises, yet the
    result of Desk reports success and its message records no error. *)
Lemma C4_read_failure_is_not_recorded :
  getAttributes Sample.desk = inl "read timed out"%string /\
  success (control_device_thread Sample.desk (Some "ON") None None) = true /\
  message (control_device_thread Sample.desk (Some "ON") None None)
    = "Successfully controlled Desk"%string /\
  power_state (control_device_thread Sample.desk (Some "ON") None None)
    = Some "ON"%string.
Proof. repeat split; reflexivity. Qed.

(** C4 (amended): an exception raised by a device's attribute write is
    caught in that device's worker, which stops there and records it in its
    result ([success = false], message "Error controlling <name>: <e>");
    an exception raised during the attribute read is swallowed by
    [get_device_attributes], so that the worker behaves as if the device had
    reported no attribute; and neither aborts the batch nor touches another
    device's result: taking a device out of the targets removes its result
    and leaves a possible results list of the remaining targets. *)
Theorem C4_failures_stay_with_their_device :
  (forall d a b c,
     (success (control_device_thread d a b c) = true /\
      message (control_device_thread d a b c)
        = ("Successfully controlled " ++ getName d)%string /\
      forall i v,
        In (EvWriteAction (getID d) i v) (control_device_events d a b c) ->
        writeAction d i v = None)
     \/
     (exists evs i v e,
        control_device_events d a b c = evs ++ [EvWriteAction (getID d) i v] /\
        writeAction d i v = Some e /\
        success (control_device_thread d a b c) = false /\
        message (control_device_thread d a b c)
          = ("Error controlling " ++ getName d ++ ": " ++ e)%string)) /\
  (forall d a b c e,
     read_raises d e ->
     control_device_run d a b c
       = control_device_run (with_attributes d (inr [])) a b c) /\
  (forall a b c l1 d l2 res,
     Pool.dispatch_outcome a b c (l1 ++ d :: l2) res ->
     exists r1 r2,
       res = r1 ++ control_device_thread d a b c :: r2 /\
       Pool.dispatch_outcome a b c (l1 ++ l2) (r1 ++ r2)).
Proof.
  split; [exact DeviceFacts.worker_verdict|].
  split; [exact DeviceFacts.read_failure_swallowed|].
  intros a b c l1 d l2 res H.
  apply PoolFacts.outcome_permutation in H.
  rewrite map_app in H. cbn [map] in H.
  assert (Hin : In (Pool.worker a b c d) res).
  { eapply Permutation_in; [symmetry; exact H|].
    apply in_or_app. right. left. reflexivity. }
  apply in_split in Hin. destruct Hin as [r1 [r2 ->]].
  exists r1, r2. split; [reflexivity|].
  apply PoolFacts.permutation_outcome. rewrite map_app.
  eapply Permutation_app_inv. exact H.
Qed.

End DispatchFacts.

(** ** The service *)
Module ServerFacts.
Import Vendor Outcome Server.

Lemma validate_400 request s d : validate request = Some (s, d) -> s = 400.
Proof.
  unfold validate. intros H.
  repeat match type of H with
         | (if ?x then _ else _) = _ => destruct x
         end;
    try discriminate; injection H as <- _; reflexivity.
Qed.

Lemma resolve_404 request lights s d :
  resolve request lights = inl (s, d) -> s = 404.
Proof.
  unfold resolve. intros H.
  destruct (name request) as [n|]; [|discriminate].
  destruct (PyStr.truthy n); [|discriminate].
  destruct (filter _ lights); [|discriminate].
  injection H as <- _. reflexivity.
Qed.

(** The targets are lights known after the refresh. *)
Lemma resolve_incl request lights targets :
  resolve request lights = inr targets -> incl targets lights.
Proof.
  unfold resolve. intros H.
  destruct (name request) as [n|];
    [destruct (PyStr.truthy n)|]; try (injection H as <-; apply incl_refl).
  destruct (filter _ lights) as [|d l] eqn:Hf; [discriminate|].
  injection H as <-. rewrite <- Hf. intros x Hx.
  apply filter_In in Hx. apply Hx.
Qed.

Lemma filter_length_le {A} (f : A -> bool) (l : list A) :
  (List.length (filter f l) <= List.length l)%nat.
Proof.
  induction l as [|x l IH]; simpl; [lia|]. destruct (f x); simpl; lia.
Qed.

(** [success_count == total_count] says that every result succeeded. *)
Lemma success_count_all rs :
  Nat.eqb (success_count rs) (List.length rs) = true <->
  (forall r, In r rs -> Device.success r = true).
Proof.
  unfold success_count. rewrite Nat.eqb_eq.
  induction rs as [|r rs IH]; simpl.
  - split; [intros _ r [] | reflexivity].
  - destruct (Device.success r) eqn:Hr; simpl.
    + split.
      * intros H x [<-|Hx]; [exact Hr|]. apply IH; [lia | exact Hx].
      * intros H. f_equal. apply IH. intros x Hx. apply H. right. exact Hx.
    + split.
      * intros H. pose proof (filter_length_le Device.success rs). lia.
      * intros H. specialize (H r (or_introl eq_refl)). congruence.
Qed.

Lemma worker_events_device d a b c :
  Forall (fun ev => device_event ev = true)
         (Device.control_device_events d a b c).
Proof.
  DeviceFacts.unfold_run. DeviceFacts.split_run; cbn [app];
    repeat constructor.
Qed.

Lemma steps_device_events a b c p q :
  Pool.steps a b c p q ->
  Forall (fun ev => device_event ev = true) (Pool.trace p) ->
  Forall (fun ev => device_event ev = true) (Pool.trace q).
Proof.
  induction 1 as [|x y z Hxy _ IH]; [auto|].
  intros H. apply IH. destruct Hxy; cbn [Pool.trace] in *; [exact H|].
  apply Forall_app. split; [exact H | apply worker_events_device].
Qed.

(** The fan-out only makes calls on devices. *)
Lemma dispatch_device_events a b c sched targets :
  Forall (fun ev => device_event ev = true)
         (snd (Pool.dispatch a b c sched targets)).
Proof.
  unfold Pool.dispatch. cbn [snd].
  eapply steps_device_events; [apply PoolFacts.run_pool_steps|].
  constructor.
Qed.

Lemma verify_token_spec tok auth :
  (auth = Some ("Bearer " ++ tok) /\ verify_token tok auth = inr true) \/
  (auth <> Some ("Bearer " ++ tok) /\
   verify_token tok auth = inl (401, "Invalid or missing authorization token")).
Proof.
  unfold verify_token. destruct auth as [a|]; [|right; split; [discriminate|reflexivity]].
  destruct (String.eqb_spec a ("Bearer " ++ tok)) as [->|Hne].
  - left. split; reflexivity.
  - right. split; [congruence|]. rewrite orb_true_r. reflexivity.
Qed.

(** C8: a request whose [Authorization] header is missing or is not
    ["Bearer " ++ SECRET_TOKEN] is answered 401 and the vendor is never
    contacted: no login, no device listing, no attribute read or write, and
    the globals are left as they were. *)
Theorem C8_bad_token_never_reaches_vendor tok auth body v sched now g :
  auth <> Some ("Bearer " ++ tok) ->
  post_control tok auth body v sched now g
    = (HTTPException 401 "Invalid or missing authorization token", g, []) /\
  status_of (fst (fst (post_control tok auth body v sched now g))) = 401 /\
  snd (post_control tok auth body v sched now g) = [].
Proof.
  intros H. unfold post_control.
  destruct (verify_token_spec tok auth) as [[E _]|[_ E]]; [contradiction|].
  rewrite E. repeat split.
Qed.

Lemma C8_bad_token_never_reaches_vendor_witness :
  post_control Sample.SECRET_TOKEN (Some "Bearer SECRET124")
               (mkRequest None (Some "ON") None None)
               (Devices [Sample.lamp; Sample.porch]) [] 0 Sample.fresh
    = (HTTPException 401 "Invalid or missing authorization token",
       Sample.fresh, []) /\
  status_of (fst (fst (post_control Sample.SECRET_TOKEN (Some "Bearer SECRET124")
               (mkRequest None (Some "ON") None None)
               (Devices [Sample.lamp; Sample.porch]) [] 0 Sample.fresh))) = 401 /\
  snd (post_control Sample.SECRET_TOKEN (Some "Bearer SECRET124")
               (mkRequest None (Some "ON") None None)
               (Devices [Sample.lamp; Sample.porch]) [] 0 Sample.fresh) = [].
Proof.
  apply (C8_bad_token_never_reaches_vendor Sample.SECRET_TOKEN
           (Some "Bearer SECRET124")).
  vm_compute. discriminate.
Defined.

(** C10: the health check always answers with status ["healthy"], whatever
    the vendor answers to the re-authentication; only [hubspace_connected]
    carries the outcome of [initialize_hubspace], which is true exactly when
    both the login and the device listing were answered. *)
Theorem C10_health_status_is_constant v now g :
  status (fst (fst (health_check v now g))) = "healthy" /\
  hubspace_connected (fst (fst (health_check v now g)))
    = fst (fst (initialize_hubspace v g)) /\
  (hubspace_connected (fst (fst (health_check v now g))) = true <->
   exists all_devices, v = Devices all_devices).
Proof.
  unfold health_check. destruct v as [e|e|l]; cbn.
  - repeat split; try discriminate. intros [l H]. discriminate.
  - repeat split; try discriminate. intros [l H]. discriminate.
  - repeat split. exists l. reflexivity.
Qed.

(** C5: when a request reaches the fan-out (token accepted, request model
    satisfied, re-authentication answered, parameters valid, targets found),
    the response is the returned [ControlResponse], served with status 200
    whatever the devices did; its [success] flag is true exactly when every
    result has [success = true], so one failed device gives status 200 with
    [success = false]. *)
Theorem C5_aggregate_success tok auth body all_devices sched now g targets :
  verify_token tok auth = inr true ->
  model_accepts body = true ->
  validate body = None ->
  resolve body (filter is_light all_devices) = inr targets ->
  exists resp,
    fst (fst (post_control tok auth body (Devices all_devices) sched now g))
      = Returned resp /\
    status_of (fst (fst (post_control tok auth body (Devices all_devices)
                                      sched now g))) = 200 /\
    results resp
      = fst (Pool.dispatch (action body) (brightness body) (color body)
                           sched targets) /\
    (success resp = true <->
     forall r, In r (results resp) -> Device.success r = true) /\
    ((exists r, In r (results resp) /\ Device.success r = false) ->
     success resp = false).
Proof.
  intros Hv Hm Hval Hres.
  unfold post_control, control_lights. rewrite Hv, Hm.
  cbn [initialize_hubspace negb light_devices]. rewrite Hval, Hres.
  destruct (Pool.dispatch (action body) (brightness body) (color body)
                          sched targets) as [rs tr'] eqn:Hd.
  exists (prepare_response rs now). cbn [fst snd status_of results success prepare_response].
  split; [reflexivity|]. split; [reflexivity|]. split; [reflexivity|].
  split; [apply success_count_all|].
  intros [r [Hin Hr]].
  destruct (Nat.eqb (success_count rs) (List.length rs)) eqn:E; [|reflexivity].
  apply success_count_all with (r := r) in E; [congruence | exact Hin].
Qed.

Lemma C5_aggregate_success_witness :
  exists resp,
    fst (fst (post_control Sample.SECRET_TOKEN (Some "Bearer SECRET123")
                (mkRequest None None (Some 40) None)
                (Devices [Sample.lamp; Sample.fan; Sample.desk; Sample.porch])
                [2; 0]%nat 0 Sample.fresh))
      = Returned resp /\
    status_of (fst (fst (post_control Sample.SECRET_TOKEN (Some "Bearer SECRET123")
                (mkRequest None None (Some 40) None)
                (Devices [Sample.lamp; Sample.fan; Sample.desk; Sample.porch])
                [2; 0]%nat 0 Sample.fresh))) = 200 /\
    results resp
      = fst (Pool.dispatch None (Some 40) None [2; 0]%nat
                           [Sample.lamp; Sample.desk; Sample.porch]) /\
    (success resp = true <->
     forall r, In r (results resp) -> Device.success r = true) /\
    ((exists r, In r (results resp) /\ Device.success r = false) ->
     success resp = false).
Proof.
  apply (C5_aggregate_success Sample.SECRET_TOKEN (Some "Bearer SECRET123")
           (mkRequest None None (Some 40) None)
           [Sample.lamp; Sample.fan; Sample.desk; Sample.porch]
           [2; 0]%nat 0 Sample.fresh
           [Sample.lamp; Sample.desk; Sample.porch]);
    reflexivity.
Defined.

(** C6 (as stated, refuted): an authorized request with an empty body has
    invalid parameters, yet the vendor is contacted before it is rejected:
    when the login fails the answer is 500 rather than 400, and when it is
    answered the 400 comes after the login and the device listing. *)
Lemma C6_invalid_request_reaches_vendor :
  validate (mkRequest None None None None)
    = Some (400, "At least one control parameter must be specified") /\
  post_control Sample.SECRET_TOKEN (Some "Bearer SECRET123")
               (mkRequest None None None None)
               (LoginFails "bad credentials") [] 0 Sample.fresh
    = (HTTPException 500 "Failed to authenticate with Hubspace",
       Sample.fresh, [EvLogin]) /\
  post_control Sample.SECRET_TOKEN (Some "Bearer SECRET123")
               (mkRequest None None None None)
               (Devices [Sample.lamp]) [] 0 Sample.fresh
    = (HTTPException 400 "At least one control parameter must be specified",
       mkGlobals true [Sample.lamp], [EvLogin; EvGetDevices]).
Proof. repeat split; reflexivity. Qed.

(** C6 (amended): every request is processed in the order token check
    (exit 401), request-model check (exit by the framework), re-authentication
    and device refresh (exit 500), parameter validation (exit 400), name
    resolution (exit 404), fan-out, response (200).  The vendor calls of each
    exit show the order: none before the handler is entered; the login first
    in every other case; a 400 or a 404 only after the login and the device
    listing were answered; device calls only after those two, and only when
    the response is the returned one. *)
Theorem C6_request_phases tok auth body v sched now g :
  match verify_token tok auth with
  | inl _ =>
      post_control tok auth body v sched now g
        = (HTTPException 401 "Invalid or missing authorization token", g, [])
  | inr _ =>
      if model_accepts body then
        match v with
        | LoginFails _ =>
            post_control tok auth body v sched now g
              = (HTTPException 500 "Failed to authenticate with Hubspace",
                 g, [EvLogin])
        | ListFails _ =>
            post_control tok auth body v sched now g
              = (HTTPException 500 "Failed to authenticate with Hubspace",
                 mkGlobals true (light_devices g), [EvLogin; EvGetDevices])
        | Devices all_devices =>
            let g' := mkGlobals true (filter is_light all_devices) in
            match validate body with
            | Some (s, d) =>
                s = 400 /\
                post_control tok auth body v sched now g
                  = (HTTPException 400 d, g', [EvLogin; EvGetDevices])
            | None =>
                match resolve body (filter is_light all_devices) with
                | inl (s, d) =>
                    s = 404 /\
                    post_control tok auth body v sched now g
                      = (HTTPException 404 d, g', [EvLogin; EvGetDevices])
                | inr targets =>
                    exists rs tr,
                      post_control tok auth body v sched now g
                        = (Returned (prepare_response rs now), g',
                           ([EvLogin; EvGetDevices] ++ tr)%list) /\
                      incl targets (filter is_light all_devices) /\
                      Pool.dispatch_outcome (action body) (brightness body)
                                            (color body) targets rs /\
                      Forall (fun ev => device_event ev = true) tr
                end
            end
        end
      else
        post_control tok auth body v sched now g
          = (RequestValidationError, g, [])
  end.
Proof.
  unfold post_control.
  destruct (verify_token_spec tok auth) as [[_ E]|[_ E]]; rewrite E;
    [|reflexivity].
  destruct (model_accepts body); [|reflexivity].
  unfold control_lights.
  destruct v as [e|e|all_devices]; cbn [initialize_hubspace negb light_devices];
    try reflexivity.
  destruct (validate body) as [[s d]|] eqn:Hval.
  - pose proof (validate_400 _ _ _ Hval) as ->. split; reflexivity.
  - destruct (resolve body (filter is_light all_devices)) as [[s d]|targets] eqn:Hres.
    + pose proof (resolve_404 _ _ _ _ Hres) as ->. split; reflexivity.
    + pose proof (PoolFacts.dispatch_sound (action body) (brightness body)
                    (color body) sched targets) as Hout.
      pose proof (dispatch_device_events (action body) (brightness body)
                    (color body) sched targets) as Hev.
      destruct (Pool.dispatch (action body) (brightness body) (color body)
                              sched targets) as [rs tr].
      exists rs, tr. cbn [fst snd] in Hout, Hev.
      split; [reflexivity|]. split; [eapply resolve_incl; exact Hres|].
      split; assumption.
Qed.

(** C7: an authorized request whose body has [brightness = 150] does not
    get the 400 that the validation block of the handler raises for a
    brightness out of range: the constraint [ge=0, le=100] of the request
    model stops the body before the handler runs, and the answer is the
    framework's rejection, status 422, with no vendor call and the globals
    untouched.  The handler, were it entered with this body after an
    answered re-authentication, would answer 400, as its other checks do. *)
Theorem C7_authorized_brightness_150_is_422 tok n a c v sched now g :
  post_control tok (Some ("Bearer " ++ tok)) (mkRequest n a (Some 150) c)
               v sched now g
    = (RequestValidationError, g, []) /\
  status_of (fst (fst (post_control tok (Some ("Bearer " ++ tok))
                                    (mkRequest n a (Some 150) c)
                                    v sched now g))) = 422 /\
  (forall all_devices,
     status_of (fst (fst (control_lights (mkRequest n a (Some 150) c)
                                         (Devices all_devices) sched now g)))
       = 400).
Proof.
  assert (E : post_control tok (Some ("Bearer " ++ tok))
                (mkRequest n a (Some 150) c) v sched now g
              = (RequestValidationError, g, [])).
  { unfold post_control.
    destruct (verify_token_spec tok (Some ("Bearer " ++ tok)))
      as [[_ Hv]|[Hne _]]; [|contradiction Hne; reflexivity].
    rewrite Hv. reflexivity. }
  split; [exact E|]. split; [rewrite E; reflexivity|].
  intros all_devices.
  assert (Hval : exists d, validate (mkRequest n a (Some 150) c) = Some (400, d)).
  { unfold validate. cbn [action brightness color].
    rewrite orb_true_r. cbn [orb negb Z.ltb Z.gtb Z.compare Pos.compare
                              Pos.compare_cont].
    destruct a as [s|]; [|eauto].
    destruct (PyStr.truthy s && _); eauto. }
  destruct Hval as [d Hval].
  unfold control_lights. cbn [initialize_hubspace negb]. rewrite Hval.
  reflexivity.
Qed.

End ServerFacts.

(** ** Further properties of the string primitives *)
Module PyStrFacts.

Ltac by_cases_on_char c := destruct c as [[] [] [] [] [] [] [] []]; reflexivity.

Lemma upper_char_idem c : PyStr.upper_char (PyStr.upper_char c) = PyStr.upper_char c.
Proof. by_cases_on_char c. Qed.

Lemma upper_char_not_lower c : PyStr.is_lower (PyStr.upper_char c) = false.
Proof. by_cases_on_char c. Qed.

Lemma upper_char_hash c :
  Ascii.eqb (PyStr.upper_char c) "#" = Ascii.eqb c "#".
Proof. by_cases_on_char c. Qed.

Lemma upper_idem s : PyStr.upper (PyStr.upper s) = PyStr.upper s.
Proof.
  unfold PyStr.upper. induction s as [|c s IH]; simpl; [reflexivity|].
  rewrite upper_char_idem, IH. reflexivity.
Qed.

Lemma upper_length s : String.length (PyStr.upper s) = String.length s.
Proof.
  unfold PyStr.upper. induction s as [|c s IH]; simpl; [reflexivity|].
  rewrite IH. reflexivity.
Qed.

Lemma truthy_upper s : PyStr.truthy (PyStr.upper s) = PyStr.truthy s.
Proof. destruct s; reflexivity. Qed.

Lemma upper_no_lower s :
  forallb (fun c => negb (PyStr.is_lower c))
          (list_ascii_of_string (PyStr.upper s)) = true.
Proof.
  unfold PyStr.upper. induction s as [|c s IH]; simpl; [reflexivity|].
  rewrite upper_char_not_lower, IH. reflexivity.
Qed.

Lemma remove_char_idem x s :
  PyStr.remove_char x (PyStr.remove_char x s) = PyStr.remove_char x s.
Proof.
  induction s as [|c s IH]; simpl; [reflexivity|].
  destruct (Ascii.eqb c x) eqn:E; [exact IH|].
  simpl. rewrite E, IH. reflexivity.
Qed.

(** Upper-casing neither creates nor destroys a [#]. *)
Lemma remove_hash_upper s :
  PyStr.remove_char "#" (PyStr.upper s) = PyStr.upper (PyStr.remove_char "#" s).
Proof.
  unfold PyStr.upper. induction s as [|c s IH]; simpl; [reflexivity|].
  rewrite upper_char_hash. destruct (Ascii.eqb c "#"); simpl; rewrite IH; reflexivity.
Qed.

Lemma startswith_upper s :
  PyStr.startswith_char "#" (PyStr.upper s) = PyStr.startswith_char "#" s.
Proof. destruct s as [|c s]; [reflexivity|]. simpl. apply upper_char_hash. Qed.

(** [color_clean] yields a string without [#] and without lower-case
    letters, and is a fixed point on its own values. *)
Lemma color_clean_no_hash c :
  PyStr.remove_char "#" (Translator.color_clean c) = Translator.color_clean c.
Proof.
  unfold Translator.color_clean. rewrite remove_hash_upper, remove_char_idem.
  reflexivity.
Qed.

Lemma color_clean_idem c :
  Translator.color_clean (Translator.color_clean c) = Translator.color_clean c.
Proof.
  unfold Translator.color_clean at 1. rewrite color_clean_no_hash.
  unfold Translator.color_clean. apply upper_idem.
Qed.

End PyStrFacts.

(** ** Further properties of one worker *)
Module WorkerFacts.
Import Vendor Device Outcome.
Import DeviceFacts.

(** X1: a worker reads the attributes of its device once, first, and then
    makes at most three writes, all on its own device, on attributes taken
    from 1, 2, 4 in increasing order (power, brightness, color), each at
    most once. *)
Theorem X1_worker_call_sequence d a b c :
  exists ws : list (Z * string),
    control_device_events d a b c
      = EvGetAttributes (getID d)
        :: map (fun w => EvWriteAction (getID d) (fst w) (snd w)) ws /\
    StronglySorted Z.lt (map fst ws) /\
    Forall (fun w => fst w = 1 \/ fst w = 2 \/ fst w = 4) ws.
Proof.
  unfold_run. split_run; cbn [app];
    solve [ (eexists [] + eexists [(_, _)] + eexists [(_, _); (_, _)]
             + eexists [(_, _); (_, _); (_, _)]);
            (split; [cbn [map fst snd]; reflexivity|]);
            split; cbn [map fst snd]; repeat constructor; auto ].
Qed.

(** X2: a field that the request does not address keeps the value read
    before the call, whether the worker succeeds or not: the brightness
    when none is requested, the color when none is requested or its cleaned
    length is not 6, the power state when the action is absent or is
    neither ON nor OFF. *)
Theorem X2_unrequested_fields_are_kept d a b c :
  (b = None ->
   brightness (control_device_thread d a b c)
     = attrs_brightness (get_device_attributes d)) /\
  ((forall col, c = Some col -> Translator.encodeColor col = None) ->
   color (control_device_thread d a b c)
     = attrs_color (get_device_attributes d)) /\
  ((forall s, a = Some s -> PyStr.upper s <> "ON" /\ PyStr.upper s <> "OFF") ->
   power_state (control_device_thread d a b c)
     = attrs_power (get_device_attributes d)).
Proof.
  split; [|split].
  - intros ->. unfold_run. split_run; reflexivity.
  - intros Hc. destruct c as [col|].
    + specialize (Hc col eq_refl). unfold_run. rewrite Hc.
      split_run; reflexivity.
    + unfold_run. split_run; reflexivity.
  - intros Ha. destruct a as [s|].
    + destruct (Ha s eq_refl) as [Hon Hoff].
      apply String.eqb_neq in Hon. apply String.eqb_neq in Hoff.
      unfold_run. rewrite Hon, Hoff. split_run; reflexivity.
    + unfold_run. split_run; reflexivity.
Qed.

(** X3: a successful result echoes the request: the power state is the
    requested one (ON or OFF, whatever the case of the letters), the
    brightness is the requested value, and the color is [#] followed by the
    cleaned, upper-case form of the requested color. *)
Theorem X3_success_echoes_request d a b c :
  success (control_device_thread d a b c) = true ->
  (forall s, a = Some s -> PyStr.upper s = "ON" ->
             power_state (control_device_thread d a b c) = Some "ON") /\
  (forall s, a = Some s -> PyStr.upper s = "OFF" ->
             power_state (control_device_thread d a b c) = Some "OFF") /\
  (forall v, b = Some v ->
             brightness (control_device_thread d a b c) = Some v) /\
  (forall col cc, c = Some col -> Translator.encodeColor col = Some cc ->
                  color (control_device_thread d a b c) = Some ("#" ++ cc)).
Proof.
  intros Hs. repeat split.
  - intros s -> Hon. apply String.eqb_eq in Hon. revert Hs.
    assert (Ht : PyStr.truthy s = true)
      by (destruct s; [discriminate Hon | reflexivity]).
    unfold_run. rewrite Ht, Hon. split_run; intros Hs;
      first [discriminate Hs | reflexivity].
  - intros s -> Hoff. apply String.eqb_eq in Hoff. revert Hs.
    assert (Ht : PyStr.truthy s = true)
      by (destruct s; [discriminate Hoff | reflexivity]).
    assert (Hon : String.eqb (PyStr.upper s) "ON" = false).
    { apply String.eqb_eq in Hoff. rewrite Hoff. reflexivity. }
    unfold_run. rewrite Ht, Hon, Hoff. split_run; intros Hs;
      first [discriminate Hs | reflexivity].
  - intros v ->. revert Hs. unfold_run. split_run; intros Hs;
      first [discriminate Hs | reflexivity].
  - intros col cc -> Hcc. revert Hs.
    assert (Ht : PyStr.truthy col = true).
    { destruct col; [discriminate Hcc | reflexivity]. }
    unfold_run. rewrite Ht, Hcc. split_run; intros Hs;
      first [discriminate Hs | reflexivity].
Qed.

(** X4: the worker stops at the first write that raises, and the changes
    made before it stay in the result: when the power write is answered and
    the brightness write raises [e], the result reports the failure with
    [e], carries the new power state, keeps the brightness and color read
    before the call, and the color write is not attempted. *)
Theorem X4_failed_result_keeps_earlier_changes d s v c e :
  PyStr.upper s = "ON" ->
  writeAction d 1 "01" = None ->
  writeAction d 2 (Translator.encodeBrightness v) = Some e ->
  control_device_run d (Some s) (Some v) c
    = (mkDeviceResult (getName d) (getID d) false
         ("Error controlling " ++ getName d ++ ": " ++ e)
         (Some "ON")
         (attrs_brightness (get_device_attributes d))
         (attrs_color (get_device_attributes d)),
       [EvGetAttributes (getID d); EvWriteAction (getID d) 1 "01";
        EvWriteAction (getID d) 2 (Translator.encodeBrightness v)]).
Proof.
  intros Hon H1 H2. apply String.eqb_eq in Hon.
  assert (Ht : PyStr.truthy s = true)
    by (destruct s; [discriminate Hon | reflexivity]).
  unfold_run. rewrite Ht, Hon, H1. cbn [fst snd]. rewrite H2. reflexivity.
Qed.

Lemma X4_failed_result_keeps_earlier_changes_witness :
  control_device_run Sample.porch (Some "on") (Some 30) (Some "#00ff00")
    = (mkDeviceResult (getName Sample.porch) (getID Sample.porch) false
         ("Error controlling " ++ getName Sample.porch ++ ": " ++ "write refused")
         (Some "ON")
         (attrs_brightness (get_device_attributes Sample.porch))
         (attrs_color (get_device_attributes Sample.porch)),
       [EvGetAttributes (getID Sample.porch);
        EvWriteAction (getID Sample.porch) 1 "01";
        EvWriteAction (getID Sample.porch) 2 (Translator.encodeBrightness 30)]).
Proof.
  apply (X4_failed_result_keeps_earlier_changes Sample.porch "on" 30
           (Some "#00ff00") "write refused"); reflexivity.
Defined.

Lemma encodeColor_some col cc :
  Translator.encodeColor col = Some cc ->
  cc = Translator.color_clean col /\ String.length cc = 6%nat.
Proof.
  unfold Translator.encodeColor. cbv zeta.
  destruct (Nat.eqb_spec (String.length (Translator.color_clean col)) 6) as [E|_];
    [|discriminate].
  intros H. injection H as <-. split; [reflexivity | exact E].
Qed.

(** X5: every write of a worker goes to its own device and carries a value
    derived from the request: ["01"] or ["00"] on attribute 1, according to
    the upper-cased action; the [02X] rendering of the requested brightness
    on attribute 2; on attribute 4 the cleaned color, which has exactly six
    characters, no [#] and no lower-case letter. *)
Theorem X5_written_values d a b c id i v :
  In (EvWriteAction id i v) (control_device_events d a b c) ->
  id = getID d /\
  ((i = 1 /\ exists s, a = Some s /\
                       ((PyStr.upper s = "ON" /\ v = "01") \/
                        (PyStr.upper s = "OFF" /\ v = "00")))
   \/ (i = 2 /\ exists bv, b = Some bv /\ v = Translator.encodeBrightness bv)
   \/ (i = 4 /\ exists col, c = Some col /\ v = Translator.color_clean col /\
                String.length v = 6%nat /\
                PyStr.remove_char "#" v = v /\
                forallb (fun ch => negb (PyStr.is_lower ch))
                        (list_ascii_of_string v) = true)).
Proof.
  assert (Hpow : forall s val,
            a = Some s ->
            (PyStr.upper s = "ON" /\ val = "01") \/
            (PyStr.upper s = "OFF" /\ val = "00") ->
            (1 = 1 /\ exists s, a = Some s /\
                       ((PyStr.upper s = "ON" /\ val = "01") \/
                        (PyStr.upper s = "OFF" /\ val = "00")))) by eauto.
  assert (Hcol : forall col cc,
            c = Some col -> Translator.encodeColor col = Some cc ->
            exists col, c = Some col /\ cc = Translator.color_clean col /\
                String.length cc = 6%nat /\
                PyStr.remove_char "#" cc = cc /\
                forallb (fun ch => negb (PyStr.is_lower ch))
                        (list_ascii_of_string cc) = true).
  { intros col cc Hc Hcc. destruct (encodeColor_some _ _ Hcc) as [-> Hlen].
    exists col. repeat split; try assumption.
    - apply PyStrFacts.color_clean_no_hash.
    - apply PyStrFacts.upper_no_lower. }
  unfold_run. split_run; cbn [app In]; intros H;
    repeat (destruct H as [H|H]; [|try contradiction]);
    try discriminate H; injection H as <- <- <-;
    (split; [reflexivity|]);
    repeat match goal with
           | E : String.eqb _ _ = true |- _ => apply String.eqb_eq in E
           end;
    solve [ left; eapply Hpow; eauto
          | right; left; split; [reflexivity|]; eauto
          | right; right; split; [reflexivity|]; eapply Hcol; eauto ].
Qed.

Lemma X5_written_values_witness :
  getID Sample.lamp = getID Sample.lamp /\
  ((4 = 1 /\ exists s, Some "off" = Some s /\
                       ((PyStr.upper s = "ON" /\ "A0B1C2" = "01") \/
                        (PyStr.upper s = "OFF" /\ "A0B1C2" = "00")))
   \/ (4 = 2 /\ exists bv, Some 30 = Some bv /\
                           "A0B1C2" = Translator.encodeBrightness bv)
   \/ (4 = 4 /\ exists col, Some "#a0b1c2" = Some col /\
                "A0B1C2" = Translator.color_clean col /\
                String.length "A0B1C2" = 6%nat /\
                PyStr.remove_char "#" "A0B1C2" = "A0B1C2" /\
                forallb (fun ch => negb (PyStr.is_lower ch))
                        (list_ascii_of_string "A0B1C2") = true)).
Proof.
  apply (X5_written_values Sample.lamp (Some "off") (Some 30) (Some "#a0b1c2")
           (getID Sample.lamp) 4 "A0B1C2").
  vm_compute. right. right. right. left. reflexivity.
Defined.

(** X6: a color read from a device can be sent back: for a six-character
    attribute value without [#], the reported color passes the check of the
    request validation, its cleaned form is the upper-cased value, and when
    the value is already upper-case the value written is the value read. *)
Theorem X6_color_round_trip v :
  String.length v = 6%nat ->
  PyStr.remove_char "#" v = v ->
  PyStr.startswith_char "#" (Translator.decodeColor v) = true /\
  Translator.encodeColor (Translator.decodeColor v) = Some (PyStr.upper v) /\
  (PyStr.upper v = v ->
   Translator.encodeColor (Translator.decodeColor v) = Some v /\
   Translator.decodeColor v
     = Translator.decodeColor (Translator.color_clean (Translator.decodeColor v))).
Proof.
  intros Hlen Hh.
  assert (Hc : Translator.color_clean (Translator.decodeColor v) = PyStr.upper v).
  { unfold Translator.color_clean, Translator.decodeColor. cbn. rewrite Hh.
    reflexivity. }
  assert (He : Translator.encodeColor (Translator.decodeColor v)
               = Some (PyStr.upper v)).
  { unfold Translator.encodeColor. cbv zeta. rewrite Hc.
    rewrite PyStrFacts.upper_length, Hlen. reflexivity. }
  split; [reflexivity|]. split; [exact He|].
  intros Hu. rewrite He, Hc, Hu. split; reflexivity.
Qed.

Lemma X6_color_round_trip_witness :
  PyStr.startswith_char "#" (Translator.decodeColor "FF00AA") = true /\
  Translator.encodeColor (Translator.decodeColor "FF00AA")
    = Some (PyStr.upper "FF00AA") /\
  (PyStr.upper "FF00AA" = "FF00AA" ->
   Translator.encodeColor (Translator.decodeColor "FF00AA") = Some "FF00AA" /\
   Translator.decodeColor "FF00AA"
     = Translator.decodeColor
         (Translator.color_clean (Translator.decodeColor "FF00AA"))).
Proof. apply (X6_color_round_trip "FF00AA"); reflexivity. Defined.

Lemma X3_success_echoes_request_witness :
  (forall s, Some "off" = Some s -> PyStr.upper s = "ON" ->
             power_state (control_device_thread Sample.lamp (Some "off")
                            (Some 30) (Some "#a0b1c2")) = Some "ON") /\
  (forall s, Some "off" = Some s -> PyStr.upper s = "OFF" ->
             power_state (control_device_thread Sample.lamp (Some "off")
                            (Some 30) (Some "#a0b1c2")) = Some "OFF") /\
  (forall v, Some 30 = Some v ->
             brightness (control_device_thread Sample.lamp (Some "off")
                           (Some 30) (Some "#a0b1c2")) = Some v) /\
  (forall col cc, Some "#a0b1c2" = Some col ->
                  Translator.encodeColor col = Some cc ->
                  color (control_device_thread Sample.lamp (Some "off")
                           (Some 30) (Some "#a0b1c2")) = Some ("#" ++ cc)).
Proof.
  apply (X3_success_echoes_request Sample.lamp (Some "off") (Some 30)
           (Some "#a0b1c2")).
  reflexivity.
Defined.

Lemma find_filter {A} (p q : A -> bool) (l : list A) :
  (forall x, p x = true -> q x = true) ->
  find p (filter q l) = find p l.
Proof.
  intros H. induction l as [|x l IH]; [reflexivity|]. cbn [filter find].
  destruct (q x) eqn:Hq; cbn [find].
  - rewrite IH. reflexivity.
  - destruct (p x) eqn:Hp; [|exact IH]. rewrite (H x Hp) in Hq. discriminate.
Qed.

Lemma find_attr_none i attributes :
  find_attr i attributes = None <->
  (forall a, In a attributes -> attr_id a <> i).
Proof.
  unfold find_attr. split.
  - intros H a Ha E. apply (find_none _ _ H) in Ha. cbn in Ha.
    apply Z.eqb_neq in Ha. contradiction.
  - intros H. induction attributes as [|x l IH]; [reflexivity|]. cbn [find].
    destruct (Z.eqb_spec (attr_id x) i) as [E|_].
    + contradiction (H x (or_introl eq_refl) E).
    + apply IH. intros a Ha. apply H. right. exact Ha.
Qed.

(** X17: what [get_device_attributes] makes of the vendor's list: only the
    attributes with id 1, 2 and 4 matter (the others can be dropped without
    changing the answer); a brightness value that is not a decimal literal
    loses the whole read, power and color included; and otherwise each of
    the keys power, brightness, color is present exactly when an attribute
    with id 1, 2, 4 is listed. *)
Theorem X17_read_uses_attributes_1_2_4 d attributes :
  getAttributes d = inr attributes ->
  get_device_attributes d
    = get_device_attributes
        (with_attributes d
           (inr (filter (fun a => (attr_id a =? 1) || (attr_id a =? 2)
                                  || (attr_id a =? 4)) attributes))) /\
  (forall a, find_attr 2 attributes = Some a ->
             Translator.decodeBrightness (attr_value a) = None ->
             get_device_attributes d = no_attrs) /\
  ((forall a, find_attr 2 attributes = Some a ->
              Translator.decodeBrightness (attr_value a) <> None) ->
   (attrs_power (get_device_attributes d) = None <->
    forall a, In a attributes -> attr_id a <> 1) /\
   (attrs_brightness (get_device_attributes d) = None <->
    forall a, In a attributes -> attr_id a <> 2) /\
   (attrs_color (get_device_attributes d) = None <->
    forall a, In a attributes -> attr_id a <> 4)).
Proof.
  intros Hg. unfold get_device_attributes, with_attributes.
  cbn [getAttributes]. rewrite Hg. split; [|split].
  - unfold read_attrs, find_attr.
    rewrite !find_filter; [reflexivity| | |];
      intros x Hx; rewrite Hx, ?orb_true_r; reflexivity.
  - intros a H2 Hd. unfold read_attrs. rewrite H2, Hd. reflexivity.
  - intros Hok. rewrite <- !find_attr_none. unfold read_attrs.
    destruct (find_attr 2 attributes) as [a2|] eqn:H2.
    + destruct (Translator.decodeBrightness (attr_value a2)) eqn:Hd;
        [|contradiction (Hok a2 eq_refl Hd)].
      cbn [attrs_power attrs_brightness attrs_color].
      destruct (find_attr 1 attributes), (find_attr 4 attributes);
        cbn [option_map]; repeat split; intros; congruence.
    + cbn [attrs_power attrs_brightness attrs_color].
      destruct (find_attr 1 attributes), (find_attr 4 attributes);
        cbn [option_map]; repeat split; intros; congruence.
Qed.

Lemma X17_read_uses_attributes_1_2_4_witness :
  get_device_attributes Sample.lamp
    = get_device_attributes
        (with_attributes Sample.lamp
           (inr (filter (fun a => (attr_id a =? 1) || (attr_id a =? 2)
                                  || (attr_id a =? 4))
                        [mkAttribute 1 "1"; mkAttribute 2 "50";
                         mkAttribute 4 "FF0000"]))) /\
  (forall a, find_attr 2 [mkAttribute 1 "1"; mkAttribute 2 "50";
                          mkAttribute 4 "FF0000"] = Some a ->
             Translator.decodeBrightness (attr_value a) = None ->
             get_device_attributes Sample.lamp = no_attrs) /\
  ((forall a, find_attr 2 [mkAttribute 1 "1"; mkAttribute 2 "50";
                           mkAttribute 4 "FF0000"] = Some a ->
              Translator.decodeBrightness (attr_value a) <> None) ->
   (attrs_power (get_device_attributes Sample.lamp) = None <->
    forall a, In a [mkAttribute 1 "1"; mkAttribute 2 "50";
                    mkAttribute 4 "FF0000"] -> attr_id a <> 1) /\
   (attrs_brightness (get_device_attributes Sample.lamp) = None <->
    forall a, In a [mkAttribute 1 "1"; mkAttribute 2 "50";
                    mkAttribute 4 "FF0000"] -> attr_id a <> 2) /\
   (attrs_color (get_device_attributes Sample.lamp) = None <->
    forall a, In a [mkAttribute 1 "1"; mkAttribute 2 "50";
                    mkAttribute 4 "FF0000"] -> attr_id a <> 4)).
Proof.
  apply (X17_read_uses_attributes_1_2_4 Sample.lamp
           [mkAttribute 1 "1"; mkAttribute 2 "50"; mkAttribute 4 "FF0000"]).
  reflexivity.
Defined.

End WorkerFacts.

(** ** Further properties of the batch *)
Module BatchFacts.
Import Vendor Device Outcome.
Local Open Scope list_scope.

Lemma worker_identity d a b c :
  name (control_device_thread d a b c) = getName d /\
  device_id (control_device_thread d a b c) = getID d.
Proof.
  DeviceFacts.unfold_run. DeviceFacts.split_run; split; reflexivity.
Qed.

(** Along a run of the fan-out, the results and the calls logged are those
    of the workers that finished, in the order they finished. *)
Lemma steps_order a b c p q :
  Pool.steps a b c p q ->
  forall done,
    Pool.results p = map (Pool.worker a b c) done ->
    Pool.trace p = flat_map (Pool.worker_events a b c) done ->
    exists done',
      Pool.results q = map (Pool.worker a b c) (done ++ done') /\
      Pool.trace q = flat_map (Pool.worker_events a b c) (done ++ done') /\
      Permutation (done' ++ Pool.running q ++ Pool.todo q)
                  (Pool.running p ++ Pool.todo p).
Proof.
  induction 1 as [p | p p' q Hstep _ IH]; intros done Hres Htr.
  - exists []. rewrite app_nil_r. repeat split; try assumption. reflexivity.
  - destruct Hstep as [d t r res tr | t l1 d l2 res tr];
      cbn [Pool.results Pool.trace Pool.running Pool.todo] in *.
    + destruct (IH done Hres Htr) as [done' [H1 [H2 H3]]].
      exists done'. repeat split; try assumption.
      rewrite H3. rewrite <- app_assoc. reflexivity.
    + destruct (IH (done ++ [d])) as [done' [H1 [H2 H3]]].
      * rewrite map_app, Hres. reflexivity.
      * rewrite flat_map_app, Htr. cbn [flat_map]. rewrite app_nil_r.
        reflexivity.
      * exists (d :: done'). rewrite <- !app_assoc in H1, H2.
        repeat split; try assumption.
        cbn [app]. rewrite <- app_assoc. cbn [app].
        etransitivity; [apply perm_skip, H3|].
        rewrite <- app_assoc. apply Permutation_middle.
Qed.

Lemma dispatch_order a b c sched targets :
  exists order,
    Permutation order targets /\
    fst (Pool.dispatch a b c sched targets) = map (Pool.worker a b c) order /\
    snd (Pool.dispatch a b c sched targets)
      = flat_map (Pool.worker_events a b c) order.
Proof.
  unfold Pool.dispatch. cbn [fst snd].
  pose proof (PoolFacts.run_pool_steps a b c sched (Pool.start targets)) as Hs.
  pose proof (PoolFacts.run_pool_joined a b c sched (Pool.start targets))
    as [Ht Hr].
  destruct (steps_order _ _ _ _ _ Hs [] eq_refl eq_refl) as [order [H1 [H2 H3]]].
  rewrite Ht, Hr in H3. cbn [Pool.start Pool.running Pool.todo app] in H3.
  rewrite !app_nil_r in H3.
  exists order. repeat split; assumption.
Qed.

(** X7: whatever the interleaving, the results of the fan-out are the
    per-device results of the targets taken in some order (the order in
    which the workers finished); every result carries the name and id of
    its device, so that results can be matched to targets although their
    order is not fixed; and the vendor calls made are, up to their order,
    the calls of the workers of the targets: no call is lost or added. *)
Theorem X7_dispatch_is_serializable a b c sched targets :
  exists order,
    Permutation order targets /\
    fst (Pool.dispatch a b c sched targets)
      = map (fun d => control_device_thread d a b c) order /\
    map device_id (fst (Pool.dispatch a b c sched targets)) = map getID order /\
    map name (fst (Pool.dispatch a b c sched targets)) = map getName order /\
    Permutation (snd (Pool.dispatch a b c sched targets))
                (flat_map (fun d => control_device_events d a b c) targets).
Proof.
  destruct (dispatch_order a b c sched targets) as [order [H1 [H2 H3]]].
  exists order. split; [exact H1|]. split; [exact H2|].
  rewrite H2, H3, !map_map. unfold Pool.worker.
  split; [apply map_ext; intros d; apply worker_identity|].
  split; [apply map_ext; intros d; apply worker_identity|].
  apply Permutation_flat_map. exact H1.
Qed.

End BatchFacts.

(** ** Further properties of [POST /control] *)
Module RequestFacts.
Import Vendor Outcome Server.

Lemma resolve_match body lights targets :
  resolve body lights = inr targets ->
  forall d, In d targets ->
    In d lights /\
    (forall n, name body = Some n -> PyStr.truthy n = true ->
               PyStr.lower (getName d) = PyStr.lower n).
Proof.
  unfold resolve. intros H d Hd.
  destruct (name body) as [n|].
  - destruct (PyStr.truthy n) eqn:Ht.
    + destruct (filter _ lights) as [|x l] eqn:Hf; [discriminate|].
      injection H as <-. rewrite <- Hf in Hd. apply filter_In in Hd.
      destruct Hd as [Hin Hm]. apply String.eqb_eq in Hm.
      split; [exact Hin|]. intros n' E _. injection E as <-. exact Hm.
    + injection H as <-. split; [exact Hd|]. intros n' E Ht'.
      injection E as <-. congruence.
  - injection H as <-. split; [exact Hd|]. discriminate.
Qed.

(** X8: the only devices [POST /control] ever reads or writes are lights of
    the list the vendor has just returned (non-empty name, class "light" in
    any case), and, when the request names a light, only those whose name
    equals that name up to case; every such call is one of the calls of
    that device's worker. *)
Theorem X8_only_targeted_lights_are_touched tok auth body v sched now g ev :
  In ev (snd (post_control tok auth body v sched now g)) ->
  ev = EvLogin \/ ev = EvGetDevices \/
  exists all_devices d,
    v = Devices all_devices /\ In d all_devices /\ is_light d = true /\
    (forall n, name body = Some n -> PyStr.truthy n = true ->
               PyStr.lower (getName d) = PyStr.lower n) /\
    In ev (Device.control_device_events d (action body) (brightness body)
                                        (color body)).
Proof.
  unfold post_control.
  destruct (verify_token tok auth) as [[s0 d0]|]; [intros []|].
  destruct (model_accepts body); [|intros []].
  unfold control_lights.
  destruct v as [e|e|all_devices]; cbn [initialize_hubspace negb light_devices snd].
  - intros [<-|[]]. auto.
  - intros [<-|[<-|[]]]; auto.
  - destruct (validate body) as [[s1 d1]|]; [intros [<-|[<-|[]]]; auto|].
    destruct (resolve body (filter is_light all_devices))
      as [[s1 d1]|targets] eqn:Hres; [intros [<-|[<-|[]]]; auto|].
    destruct (BatchFacts.dispatch_order (action body) (brightness body)
                (color body) sched targets) as [order [Hp [_ Htr]]].
    destruct (Pool.dispatch (action body) (brightness body) (color body)
                            sched targets) as [rs tr'].
    cbn [fst snd] in *. intros [<-|[<-|Hin]]; auto.
    right. right. subst tr'. apply in_flat_map in Hin.
    destruct Hin as [d [Hd Hev]].
    apply (Permutation_in _ Hp) in Hd.
    destruct (resolve_match _ _ _ Hres d Hd) as [Hl Hn].
    apply filter_In in Hl. destruct Hl as [Hall Hlight].
    exists all_devices, d. repeat split; assumption.
Qed.

Lemma X8_only_targeted_lights_are_touched_witness :
  EvWriteAction "dev-3" 1 "01" = EvLogin \/
  EvWriteAction "dev-3" 1 "01" = EvGetDevices \/
  exists all_devices d,
    Devices [Sample.lamp; Sample.fan; Sample.porch] = Devices all_devices /\
    In d all_devices /\ is_light d = true /\
    (forall n, name (mkRequest (Some "PORCH") (Some "on") None None) = Some n ->
               PyStr.truthy n = true ->
               PyStr.lower (getName d) = PyStr.lower n) /\
    In (EvWriteAction "dev-3" 1 "01")
       (Device.control_device_events d
          (action (mkRequest (Some "PORCH") (Some "on") None None))
          (brightness (mkRequest (Some "PORCH") (Some "on") None None))
          (color (mkRequest (Some "PORCH") (Some "on") None None))).
Proof.
  apply (X8_only_targeted_lights_are_touched Sample.SECRET_TOKEN
           (Some "Bearer SECRET123")
           (mkRequest (Some "PORCH") (Some "on") None None)
           (Devices [Sample.lamp; Sample.fan; Sample.porch]) [] 0 Sample.fresh).
  vm_compute. right. right. right. left. reflexivity.
Defined.

Lemma dispatch_nil a b c sched : Pool.dispatch a b c sched [] = ([], []).
Proof. destruct sched; reflexivity. Qed.

(** X9: when the vendor lists no light and the request names none, a valid
    request is answered 200 with [success = true], an empty results list
    and the message "Controlled 0/0 devices successfully": the aggregate
    flag is vacuously true. *)
Theorem X9_no_lights_is_a_success tok auth body all_devices sched now g :
  verify_token tok auth = inr true ->
  model_accepts body = true ->
  validate body = None ->
  PyStr.otruthy (name body) = false ->
  filter is_light all_devices = [] ->
  post_control tok auth body (Devices all_devices) sched now g
    = (Returned (mkControlResponse true "Controlled 0/0 devices successfully"
                                   [] now),
       mkGlobals true [], [EvLogin; EvGetDevices]).
Proof.
  intros Hv Hm Hval Hn Hl.
  unfold post_control, control_lights. rewrite Hv, Hm.
  cbn [initialize_hubspace negb light_devices]. rewrite Hval, Hl.
  assert (Hr : resolve body [] = inr []).
  { unfold resolve. unfold PyStr.otruthy in Hn.
    destruct (name body) as [n|]; [rewrite Hn|]; reflexivity. }
  rewrite Hr, dispatch_nil. reflexivity.
Qed.

Lemma X9_no_lights_is_a_success_witness :
  post_control Sample.SECRET_TOKEN (Some "Bearer SECRET123")
               (mkRequest None (Some "ON") None None)
               (Devices [Sample.fan]) [1; 0]%nat 5 Sample.fresh
    = (Returned (mkControlResponse true "Controlled 0/0 devices successfully"
                                   [] 5),
       mkGlobals true [], [EvLogin; EvGetDevices]).
Proof.
  apply (X9_no_lights_is_a_success Sample.SECRET_TOKEN (Some "Bearer SECRET123")
           (mkRequest None (Some "ON") None None) [Sample.fan]);
    reflexivity.
Defined.

(** X10: [POST /control] answers with one of the statuses 200, 400, 401,
    404, 422, 500; the status is 401 exactly when the [Authorization] header
    is not ["Bearer " ++ SECRET_TOKEN]; it is 200 exactly when the handler
    returned a [ControlResponse]; a 500 only occurs when the vendor did not
    answer the re-authentication, and a 404 only for a request that names a
    light. *)
Theorem X10_control_statuses tok auth body v sched now g :
  In (status_of (fst (fst (post_control tok auth body v sched now g))))
     Requests.control_statuses /\
  (status_of (fst (fst (post_control tok auth body v sched now g))) = 401 <->
   auth <> Some ("Bearer " ++ tok)) /\
  (status_of (fst (fst (post_control tok auth body v sched now g))) = 200 <->
   exists resp,
     fst (fst (post_control tok auth body v sched now g)) = Returned resp) /\
  (status_of (fst (fst (post_control tok auth body v sched now g))) = 500 ->
   forall all_devices, v <> Devices all_devices) /\
  (status_of (fst (fst (post_control tok auth body v sched now g))) = 404 ->
   PyStr.otruthy (name body) = true).
Proof.
  unfold post_control.
  destruct (ServerFacts.verify_token_spec tok auth) as [[Ea E]|[Ea E]];
    rewrite E.
  2:{ cbn. repeat split; try discriminate; try tauto.
      intros [resp Hr]. discriminate Hr. }
  assert (Hna : ~ auth <> Some ("Bearer " ++ tok)) by tauto.
  destruct (model_accepts body).
  2:{ cbn. repeat split; try discriminate; try tauto.
      intros [resp Hr]. discriminate Hr. }
  unfold control_lights.
  destruct v as [e|e|all_devices];
    cbn [initialize_hubspace negb light_devices].
  - cbn. repeat split; try discriminate; try tauto.
    intros [resp Hr]. discriminate Hr.
  - cbn. repeat split; try discriminate; try tauto.
    intros [resp Hr]. discriminate Hr.
  - destruct (validate body) as [[s d]|] eqn:Hval.
    + pose proof (ServerFacts.validate_400 _ _ _ Hval) as ->. cbn.
      repeat split; try discriminate; try tauto.
      intros [resp Hr]. discriminate Hr.
    + destruct (resolve body (filter is_light all_devices))
        as [[s d]|targets] eqn:Hres.
      * pose proof (ServerFacts.resolve_404 _ _ _ _ Hres) as ->. cbn.
        repeat split; try discriminate; try tauto.
        -- intros [resp Hr]. discriminate Hr.
        -- intros _. unfold resolve in Hres. unfold PyStr.otruthy.
           destruct (name body) as [n|]; [|discriminate].
           destruct (PyStr.truthy n); [reflexivity | discriminate].
      * destruct (Pool.dispatch (action body) (brightness body) (color body)
                                sched targets) as [rs tr'].
        cbn. repeat split; try discriminate; try tauto.
        intros _. eauto.
Qed.

Lemma validate_none_inv body :
  validate body = None ->
  (forall s, action body = Some s -> PyStr.truthy s = true ->
             PyStr.upper s = "ON" \/ PyStr.upper s = "OFF") /\
  (forall bv, brightness body = Some bv -> 0 <= bv <= 100) /\
  (forall col, color body = Some col -> PyStr.truthy col = true ->
               PyStr.startswith_char "#" col = true).
Proof.
  unfold validate. intros H.
  destruct (negb _); [discriminate|].
  match type of H with (if ?x then _ else _) = _ => destruct x eqn:E2 end;
    [discriminate|].
  match type of H with (if ?x then _ else _) = _ => destruct x eqn:E3 end;
    [discriminate|].
  match type of H with (if ?x then _ else _) = _ => destruct x eqn:E4 end;
    [discriminate|].
  clear H. split; [|split].
  - intros s Ha Ht. rewrite Ha, Ht in E2. cbn [andb] in E2.
    apply negb_false_iff, orb_true_iff in E2.
    destruct E2 as [E|E]; apply String.eqb_eq in E; auto.
  - intros bv Hb. rewrite Hb in E3. apply orb_false_iff in E3.
    destruct E3 as [E E']. apply Z.ltb_ge in E.
    rewrite Z.gtb_ltb in E'. apply Z.ltb_ge in E'. lia.
  - intros col Hc Ht. rewrite Hc, Ht in E4. cbn [andb] in E4.
    apply negb_false_iff in E4. exact E4.
Qed.

(** X11: once the validation has accepted a request, its action is never
    ignored and its brightness is always encodable: for every device the
    worker's first call after the read is the power write, with ["01"] for
    an action that upper-cases to ON and ["00"] for OFF; and the requested
    brightness lies in [0,100], so that the value written for it is a
    two-character hex string denoting it. *)
Theorem X11_validated_request_is_writable body d :
  validate body = None ->
  (forall s, action body = Some s -> PyStr.truthy s = true ->
     exists v rest,
       Device.control_device_events d (action body) (brightness body)
                                    (color body)
         = EvGetAttributes (getID d) :: EvWriteAction (getID d) 1 v :: rest /\
       ((PyStr.upper s = "ON" /\ v = "01") \/
        (PyStr.upper s = "OFF" /\ v = "00"))) /\
  (forall bv, brightness body = Some bv ->
     0 <= bv <= 100 /\
     String.length (Translator.encodeBrightness bv) = 2%nat /\
     SpecWords.two_digit_hex (Translator.encodeBrightness bv) = Some bv).
Proof.
  intros Hval. destruct (validate_none_inv body Hval) as [Ha [Hb _]]. split.
  - intros s Hs Ht. rewrite Hs. destruct (Ha s Hs Ht) as [Hon|Hoff].
    + pose proof Hon as E. apply String.eqb_eq in E.
      DeviceFacts.unfold_run. rewrite Ht, E.
      DeviceFacts.split_run; cbn [app];
        solve [do 2 eexists; split; [reflexivity | auto]].
    + pose proof Hoff as E. apply String.eqb_eq in E.
      assert (E' : String.eqb (PyStr.upper s) "ON" = false)
        by (rewrite Hoff; reflexivity).
      DeviceFacts.unfold_run. rewrite Ht, E', E.
      DeviceFacts.split_run; cbn [app];
        solve [do 2 eexists; split; [reflexivity | auto]].
  - intros bv Hbv. pose proof (Hb bv Hbv) as Hr. split; [exact Hr|].
    assert (H : SpecWords.brightness_check bv = true)
      by (apply (TranslatorFacts.forall_below _ 101
                   TranslatorFacts.brightness_check_all); simpl; lia).
    unfold SpecWords.brightness_check in H.
    apply andb_prop in H. destruct H as [H _].
    apply andb_prop in H. destruct H as [H H3].
    apply andb_prop in H. destruct H as [H1 _].
    apply Nat.eqb_eq in H1. apply TranslatorFacts.opt_eqb_eq in H3.
    split; assumption.
Qed.

Lemma X11_validated_request_is_writable_witness :
  (forall s, action (mkRequest None (Some "Off") (Some 100) None) = Some s ->
     PyStr.truthy s = true ->
     exists v rest,
       Device.control_device_events Sample.porch
         (action (mkRequest None (Some "Off") (Some 100) None))
         (brightness (mkRequest None (Some "Off") (Some 100) None))
         (color (mkRequest None (Some "Off") (Some 100) None))
         = EvGetAttributes (getID Sample.porch)
           :: EvWriteAction (getID Sample.porch) 1 v :: rest /\
       ((PyStr.upper s = "ON" /\ v = "01") \/
        (PyStr.upper s = "OFF" /\ v = "00"))) /\
  (forall bv, brightness (mkRequest None (Some "Off") (Some 100) None) = Some bv ->
     0 <= bv <= 100 /\
     String.length (Translator.encodeBrightness bv) = 2%nat /\
     SpecWords.two_digit_hex (Translator.encodeBrightness bv) = Some bv).
Proof.
  apply (X11_validated_request_is_writable
           (mkRequest None (Some "Off") (Some 100) None) Sample.porch).
  reflexivity.
Defined.

Lemma color_clean_upper col :
  Translator.color_clean (PyStr.upper col) = Translator.color_clean col.
Proof.
  unfold Translator.color_clean.
  rewrite PyStrFacts.remove_hash_upper, PyStrFacts.upper_idem. reflexivity.
Qed.

Lemma worker_upper_cased d a b c :
  Device.control_device_run d (option_map PyStr.upper a) b
                            (option_map PyStr.upper c)
    = Device.control_device_run d a b c.
Proof.
  DeviceFacts.unfold_run.
  destruct a as [s|], c as [col|]; cbn [option_map];
    rewrite ?PyStrFacts.truthy_upper, ?PyStrFacts.upper_idem;
    unfold Translator.encodeColor; rewrite ?color_clean_upper; reflexivity.
Qed.

Lemma pick_upper_cased a b c k p :
  Pool.pick (option_map PyStr.upper a) b (option_map PyStr.upper c) k p
    = Pool.pick a b c k p.
Proof.
  unfold Pool.pick, Pool.worker, Pool.worker_events,
    Device.control_device_thread, Device.control_device_events.
  destruct (Pool.moves p); [reflexivity|]. cbv zeta.
  destruct (nth_error (Pool.running p) _); [|reflexivity].
  rewrite worker_upper_cased. reflexivity.
Qed.

Lemma run_pool_upper_cased a b c sched :
  forall p,
    Pool.run_pool (option_map PyStr.upper a) b (option_map PyStr.upper c) sched p
      = Pool.run_pool a b c sched p.
Proof.
  induction sched as [|k sched IH]; intros p; cbn [Pool.run_pool].
  - unfold Pool.drain, Pool.worker, Pool.worker_events,
      Device.control_device_thread, Device.control_device_events.
    cbv zeta. f_equal.
    + f_equal. apply map_ext. intros d. rewrite worker_upper_cased. reflexivity.
    + f_equal. apply flat_map_ext. intros d. rewrite worker_upper_cased.
      reflexivity.
  - rewrite pick_upper_cased. destruct (Pool.pick a b c k p); [apply IH|].
    reflexivity.
Qed.

Lemma validate_upper_cased body :
  validate (Requests.upper_cased body) = validate body.
Proof.
  unfold validate, Requests.upper_cased. cbn [action brightness color].
  destruct (action body) as [s|], (color body) as [col|];
    cbn [option_map PyStr.otruthy];
    rewrite ?PyStrFacts.truthy_upper, ?PyStrFacts.upper_idem,
      ?PyStrFacts.startswith_upper; reflexivity.
Qed.

Lemma control_lights_upper_cased body v sched now g :
  control_lights (Requests.upper_cased body) v sched now g
    = control_lights body v sched now g.
Proof.
  unfold control_lights.
  destruct (initialize_hubspace v g) as [[ok g'] tr].
  destruct ok; cbn [negb]; [|reflexivity].
  rewrite validate_upper_cased.
  destruct (validate body) as [[s d]|]; [reflexivity|].
  change (resolve (Requests.upper_cased body) (light_devices g'))
    with (resolve body (light_devices g')).
  destruct (resolve body (light_devices g')) as [[s d]|targets]; [reflexivity|].
  change (action (Requests.upper_cased body))
    with (option_map PyStr.upper (action body)).
  change (color (Requests.upper_cased body))
    with (option_map PyStr.upper (color body)).
  change (brightness (Requests.upper_cased body)) with (brightness body).
  unfold Pool.dispatch. rewrite run_pool_upper_cased. reflexivity.
Qed.

(** X12: the action and the color of a request are read without regard to
    case: upper-casing them in the body changes neither the response, nor
    the globals, nor the vendor calls of [POST /control]. *)
Theorem X12_action_and_color_ignore_case tok auth body v sched now g :
  post_control tok auth (Requests.upper_cased body) v sched now g
    = post_control tok auth body v sched now g.
Proof.
  unfold post_control.
  destruct (verify_token tok auth) as [[s d]|]; [reflexivity|].
  change (model_accepts (Requests.upper_cased body)) with (model_accepts body).
  destruct (model_accepts body); [|reflexivity].
  apply control_lights_upper_cased.
Qed.

(** X13: a request with a non-empty name targets exactly the known lights
    whose lower-cased name equals the lower-cased requested name, and at
    least one of them; the answer is 404 exactly when there is none. *)
Theorem X13_name_matching body lights n :
  name body = Some n ->
  PyStr.truthy n = true ->
  (forall targets,
     resolve body lights = inr targets ->
     targets <> [] /\
     (forall d, In d targets <->
                In d lights /\ PyStr.lower (getName d) = PyStr.lower n)) /\
  ((exists detail, resolve body lights = inl (404, detail)) <->
   (forall d, In d lights -> PyStr.lower (getName d) <> PyStr.lower n)).
Proof.
  intros Hn Ht. unfold resolve. rewrite Hn, Ht.
  set (f := fun d => String.eqb (PyStr.lower (getName d)) (PyStr.lower n)).
  assert (Hf : forall d, In d (filter f lights) <->
                         In d lights /\ PyStr.lower (getName d) = PyStr.lower n).
  { intros d. rewrite filter_In. unfold f. rewrite String.eqb_eq. tauto. }
  destruct (filter f lights) as [|x l] eqn:E.
  - split; [intros targets H; discriminate|].
    split; [|eauto]. intros _ d Hd Hm.
    exact (proj2 (Hf d) (conj Hd Hm)).
  - split.
    + intros targets H. injection H as <-.
      split; [discriminate | exact Hf].
    + split; [intros [detail H]; discriminate|].
      intros H. destruct (proj1 (Hf x) (or_introl eq_refl)) as [Hin Hm].
      contradiction (H x Hin Hm).
Qed.

Lemma X13_name_matching_witness :
  (forall targets,
     resolve (mkRequest (Some "porch") (Some "ON") None None)
             [Sample.lamp; Sample.porch] = inr targets ->
     targets <> [] /\
     (forall d, In d targets <->
                In d [Sample.lamp; Sample.porch] /\
                PyStr.lower (getName d) = PyStr.lower "porch")) /\
  ((exists detail,
      resolve (mkRequest (Some "porch") (Some "ON") None None)
              [Sample.lamp; Sample.porch] = inl (404, detail)) <->
   (forall d, In d [Sample.lamp; Sample.porch] ->
              PyStr.lower (getName d) <> PyStr.lower "porch")).
Proof.
  apply (X13_name_matching (mkRequest (Some "porch") (Some "ON") None None)
           [Sample.lamp; Sample.porch] "porch"); reflexivity.
Defined.

End RequestFacts.

(** ** The other endpoints *)
Module EndpointFacts.
Import Vendor Outcome Server Endpoints.

Lemma initialize_lights v g :
  light_devices (snd (fst (initialize_hubspace v g))) = light_devices g \/
  exists all_devices,
    v = Devices all_devices /\
    light_devices (snd (fst (initialize_hubspace v g)))
      = filter is_light all_devices.
Proof. destruct v; cbn; eauto. Qed.

Lemma initialize_keeps_lights v g :
  Forall (fun d => is_light d = true) (light_devices g) ->
  Forall (fun d => is_light d = true)
         (light_devices (snd (fst (initialize_hubspace v g)))).
Proof.
  intros H. destruct (initialize_lights v g) as [E|[all_devices [_ E]]];
    rewrite E; [exact H|].
  apply Forall_forall. intros d Hd. apply filter_In in Hd. apply Hd.
Qed.

(** X14: every element of the global list [light_devices] is a light (a
    device with a non-empty name whose class is "light" in any case), and
    every operation that touches the list keeps it so: [POST /control],
    [GET /lights], [GET /health] and the startup hook leave either the old
    list or the lights of the list the vendor has just returned. *)
Theorem X14_light_devices_holds_lights g :
  Forall (fun d => is_light d = true) (light_devices g) ->
  (forall tok auth body v sched now,
     Forall (fun d => is_light d = true)
            (light_devices (snd (fst (post_control tok auth body v sched now g))))) /\
  (forall v, Forall (fun d => is_light d = true)
                    (light_devices (snd (fst (get_lights v g))))) /\
  (forall v now, Forall (fun d => is_light d = true)
                        (light_devices (snd (fst (health_check v now g))))) /\
  (forall v, Forall (fun d => is_light d = true)
                    (light_devices (snd (fst (startup_event v g))))).
Proof.
  intros H. repeat split.
  - intros tok auth body v sched now. unfold post_control.
    destruct (verify_token tok auth) as [[s d]|]; [exact H|].
    destruct (model_accepts body); [|exact H].
    unfold control_lights.
    pose proof (initialize_keeps_lights v g H) as Hi.
    destruct (initialize_hubspace v g) as [[ok g'] tr]. cbn [fst snd] in Hi.
    destruct (negb ok); [exact Hi|].
    destruct (validate body) as [[s d]|]; [exact Hi|].
    destruct (resolve body (light_devices g')) as [[s d]|targets]; [exact Hi|].
    destruct (Pool.dispatch _ _ _ sched targets). exact Hi.
  - intros v. unfold get_lights.
    pose proof (initialize_keeps_lights v g H) as Hi.
    destruct (initialize_hubspace v g) as [[ok g'] tr]. cbn [fst snd] in Hi.
    destruct (negb ok); exact Hi.
  - intros v now. unfold health_check.
    pose proof (initialize_keeps_lights v g H) as Hi.
    destruct (initialize_hubspace v g) as [[ok g'] tr]. exact Hi.
  - intros v. unfold startup_event.
    pose proof (initialize_keeps_lights v g H) as Hi.
    destruct (initialize_hubspace v g) as [[ok g'] tr]. cbn [fst snd] in Hi.
    destruct (negb ok); exact Hi.
Qed.

Lemma X14_light_devices_holds_lights_witness :
  (forall tok auth body v sched now,
     Forall (fun d => is_light d = true)
            (light_devices
               (snd (fst (post_control tok auth body v sched now
                            (mkGlobals true [Sample.lamp; Sample.desk])))))) /\
  (forall v, Forall (fun d => is_light d = true)
                    (light_devices
                       (snd (fst (get_lights v
                            (mkGlobals true [Sample.lamp; Sample.desk])))))) /\
  (forall v now, Forall (fun d => is_light d = true)
                        (light_devices
                           (snd (fst (health_check v now
                            (mkGlobals true [Sample.lamp; Sample.desk])))))) /\
  (forall v, Forall (fun d => is_light d = true)
                    (light_devices
                       (snd (fst (startup_event v
                            (mkGlobals true [Sample.lamp; Sample.desk])))))).
Proof.
  apply (X14_light_devices_holds_lights (mkGlobals true [Sample.lamp; Sample.desk])).
  repeat constructor.
Defined.

(** X15: [GET /lights] answers 500 exactly when the vendor does not answer
    the re-authentication; otherwise it lists the lights of the vendor's
    answer, in the vendor's order, with a [count] equal to the length of
    the list; its vendor calls are the login, the listing and one attribute
    read per light, in that order, and never a write. *)
Theorem X15_get_lights_lists_the_lights v g :
  match v with
  | Devices all_devices =>
      exists lights,
        fst (fst (get_lights v g))
          = LightsReturned lights (List.length lights) /\
        List.length lights = List.length (filter is_light all_devices) /\
        map light_name lights = map getName (filter is_light all_devices) /\
        map light_device_id lights = map getID (filter is_light all_devices) /\
        snd (get_lights v g)
          = ([EvLogin; EvGetDevices]
               ++ map (fun d => EvGetAttributes (getID d))
                      (filter is_light all_devices))%list
  | _ =>
      fst (fst (get_lights v g))
        = LightsError 500 "Failed to authenticate with Hubspace" /\
      Forall (fun ev => device_event ev = false) (snd (get_lights v g))
  end /\
  (forall id i val, ~ In (EvWriteAction id i val) (snd (get_lights v g))).
Proof.
  unfold get_lights. destruct v as [e|e|all_devices];
    cbn [initialize_hubspace negb light_devices fst snd].
  - split; [split; [reflexivity | repeat constructor]|].
    intros id i val [H|[]]. discriminate H.
  - split; [split; [reflexivity | repeat constructor]|].
    intros id i val [H|[H|[]]]; discriminate H.
  - split.
    + exists (map light_entry (filter is_light all_devices)).
      rewrite !length_map, !map_map. repeat split.
    + intros id i val [H|[H|H]]; try discriminate H.
      apply in_map_iff in H. destruct H as [d [H _]]. discriminate H.
Qed.

(** X16: the power shown for a light by [GET /lights] is "ON", "OFF" or
    "UNKNOWN"; a light whose attribute read raises, be it the vendor call
    or the conversion of the brightness, is still listed, with "UNKNOWN"
    and no brightness or color; and "ON" is shown only when the first
    attribute with id 1 has the value "1". *)
Theorem X16_light_entry_power d :
  (light_power (light_entry d) = "ON" \/ light_power (light_entry d) = "OFF"
   \/ light_power (light_entry d) = "UNKNOWN") /\
  (forall e, read_raises d e ->
             light_entry d = mkLight (getName d) (getID d) "UNKNOWN" None None) /\
  (light_power (light_entry d) = "ON" ->
   exists attributes a,
     getAttributes d = inr attributes /\
     Device.find_attr 1 attributes = Some a /\ attr_value a = "1").
Proof.
  split; [|split].
  - unfold light_entry, Device.get_device_attributes, Device.read_attrs.
    cbv zeta. destruct (getAttributes d) as [e|attributes]; [auto|].
    destruct (Device.find_attr 2 attributes) as [a2|];
      [destruct (Translator.decodeBrightness (attr_value a2)); [|auto]|];
      cbn [Device.attrs_power light_power];
      (destruct (Device.find_attr 1 attributes) as [a1|];
       cbn [option_map]; [|auto]);
      unfold Translator.decodePower;
      destruct (String.eqb (attr_value a1) "1"); auto.
  - intros e H. unfold light_entry.
    rewrite (DeviceFacts.read_raises_no_attrs d e H). reflexivity.
  - unfold light_entry, Device.get_device_attributes, Device.read_attrs.
    cbv zeta. destruct (getAttributes d) as [e|attributes] eqn:Hg;
      [discriminate|].
    destruct (Device.find_attr 2 attributes) as [a2|];
      [destruct (Translator.decodeBrightness (attr_value a2)); [|discriminate]|];
      cbn [Device.attrs_power light_power];
      (destruct (Device.find_attr 1 attributes) as [a1|] eqn:H1;
       cbn [option_map]; [|discriminate]);
      unfold Translator.decodePower;
      destruct (String.eqb_spec (attr_value a1) "1") as [Hv|_];
      try discriminate; intros _; exists attributes, a1; auto.
Qed.

Lemma slice_to_length n : forall s,
  String.length (slice_to n s) = Nat.min n (String.length s).
Proof.
  induction n as [|n IH]; intros [|c s]; cbn; try reflexivity.
  rewrite IH. reflexivity.
Qed.

Lemma slice_to_prefix n : forall s, String.prefix (slice_to n s) s = true.
Proof.
  induction n as [|n IH]; intros [|c s]; cbn; try reflexivity.
  destruct (ascii_dec c c) as [_|Hne]; [apply IH | contradiction Hne; reflexivity].
Qed.

Lemma append_length s t :
  String.length (s ++ t) = (String.length s + String.length t)%nat.
Proof. induction s as [|c s IH]; cbn; [reflexivity | rewrite IH; reflexivity]. Qed.

(** X18: [GET /test-env] reports the exact lengths of the two configuration
    strings; the e-mail preview is the whole address when it has at most
    ten characters, and otherwise its first ten characters followed by
    three dots, thirteen characters in all. *)
Theorem X18_email_preview email password :
  email_length (test_environment email password) = String.length email /\
  password_length (test_environment email password) = String.length password /\
  ((String.length email <= 10)%nat ->
   email_preview (test_environment email password) = email) /\
  ((10 < String.length email)%nat ->
   email_preview (test_environment email password)
     = slice_to 10 email ++ "..." /\
   String.prefix (slice_to 10 email) email = true /\
   String.length (email_preview (test_environment email password)) = 13%nat).
Proof.
  unfold test_environment. cbn [email_length password_length email_preview].
  split; [destruct email; reflexivity|].
  split; [destruct password; reflexivity|].
  split.
  - intros H. apply Nat.ltb_ge in H. rewrite H, andb_false_r. reflexivity.
  - intros H. assert (Ht : PyStr.truthy email = true)
      by (destruct email; [cbn in H; lia | reflexivity]).
    pose proof H as H'. apply Nat.ltb_lt in H'. rewrite Ht, H'. cbn [andb].
    split; [reflexivity|]. split; [apply slice_to_prefix|].
    rewrite append_length, slice_to_length. cbn [String.length]. lia.
Qed.

End EndpointFacts.

(** ** The one-shot script *)
Module ScriptFacts.
Import Vendor Script.
Local Open Scope list_scope.

(** The value the script writes for a power state. *)
Lemma thread_events_value ps d :
  thread_events ps d
    = [EvWriteAction (getID d) 1 (if String.eqb ps "ON" then "01" else "00")].
Proof.
  unfold thread_events, control_device. destruct (String.eqb ps "ON"); reflexivity.
Qed.

Section Fanout.

Variable power_state : string.

Local Abbreviation steps := (clos_refl_trans_1n threads (fan_step power_state)).

Lemma threads_steps_trans p q r : steps p q -> steps q r -> steps p r.
Proof.
  intros H1 H2. induction H1 as [|x y z Hxy _ IH]; [assumption|].
  eapply rt1n_trans; [exact Hxy | apply IH, H2].
Qed.

Lemma threads_start_all t : forall r tr,
  steps (mkThreads t r tr) (mkThreads [] (r ++ t) tr).
Proof.
  induction t as [|d t IH]; intros r tr.
  - rewrite app_nil_r. apply rt1n_refl.
  - eapply rt1n_trans; [apply fan_start|].
    replace (r ++ d :: t) with ((r ++ [d]) ++ t)
      by (rewrite <- app_assoc; reflexivity).
    apply IH.
Qed.

Lemma steps_finish_in_order order : forall r tr,
  Permutation order r ->
  steps (mkThreads [] r tr)
        (mkThreads [] [] (tr ++ flat_map (thread_events power_state) order)).
Proof.
  induction order as [|d order IH]; intros r tr Hp.
  - apply Permutation_nil in Hp. subst r. cbn. rewrite app_nil_r.
    apply rt1n_refl.
  - assert (Hin : In d r)
      by (eapply Permutation_in; [exact Hp | left; reflexivity]).
    apply in_split in Hin. destruct Hin as [l1 [l2 ->]].
    apply Permutation_cons_app_inv in Hp.
    eapply rt1n_trans; [apply fan_finish|].
    cbn [flat_map]. rewrite app_assoc. apply IH, Hp.
Qed.

Lemma steps_finished p q :
  steps p q ->
  exists order,
    log q = log p ++ flat_map (thread_events power_state) order /\
    Permutation (order ++ active q ++ waiting q) (active p ++ waiting p).
Proof.
  induction 1 as [p | p p' q Hstep _ IH].
  - exists []. cbn. rewrite app_nil_r. split; reflexivity.
  - destruct IH as [order [Hl Hp]].
    destruct Hstep as [d t r tr | t l1 d l2 tr];
      cbn [log active waiting] in *.
    + exists order. split; [exact Hl|].
      rewrite Hp. rewrite <- app_assoc. reflexivity.
    + exists (d :: order). split.
      * rewrite Hl. rewrite <- app_assoc. reflexivity.
      * cbn [app]. etransitivity; [apply perm_skip, Hp|].
        rewrite <- !app_assoc. cbn [app].
        apply (Permutation_middle l1 (l2 ++ t) d).
Qed.

Lemma fanout_iff lights tr :
  fanout power_state lights tr <->
  exists order,
    Permutation order lights /\
    tr = flat_map (thread_events power_state) order.
Proof.
  unfold fanout. split.
  - intros H. destruct (steps_finished _ _ H) as [order [Hl Hp]].
    cbn in Hl, Hp. rewrite app_nil_r in Hp. eauto.
  - intros [order [Hp ->]].
    eapply threads_steps_trans; [apply (threads_start_all lights [] [])|].
    apply (steps_finish_in_order order lights [] Hp).
Qed.

End Fanout.

Lemma remove_nth_perm {A} (l : list A) i d :
  nth_error l i = Some d ->
  Permutation (d :: firstn i l ++ skipn (S i) l) l.
Proof.
  intros H. destruct (nth_error_split l i H) as [l1 [l2 [-> Hl]]]. subst i.
  rewrite PoolFacts.remove_nth_split. apply Permutation_middle.
Qed.

Lemma completion_order_perm sched : forall l,
  Permutation (completion_order sched l) l.
Proof.
  induction sched as [|k sched IH]; intros l; cbn [completion_order];
    [reflexivity|].
  destruct l as [|x l]; [reflexivity|]. cbv zeta.
  destruct (nth_error (x :: l) _) as [d|] eqn:Hn; [|reflexivity].
  etransitivity; [apply perm_skip, IH|].
  apply remove_nth_perm. exact Hn.
Qed.

(** X19: in each fan-out of the script, whatever the interleaving of the
    workers, every light receives exactly one write, on attribute 1, with
    ["01"] when the state is "ON" and ["00"] otherwise; the possible call
    sequences are exactly these writes in any order of the lights, and a
    write that raises does not suppress the others. *)
Theorem X19_script_fanout_writes_each_light_once power_state lights :
  (forall tr,
     fanout power_state lights tr <->
     exists order,
       Permutation order lights /\
       tr = map (fun d => EvWriteAction (getID d) 1
                            (if String.eqb power_state "ON" then "01" else "00"))
                order) /\
  (forall sched,
     fanout power_state lights (fanout_events power_state sched lights)).
Proof.
  assert (E : forall order,
            flat_map (thread_events power_state) order
            = map (fun d => EvWriteAction (getID d) 1
                              (if String.eqb power_state "ON" then "01" else "00"))
                  order).
  { induction order as [|d order IH]; [reflexivity|].
    cbn [flat_map map]. rewrite IH, thread_events_value. reflexivity. }
  split.
  - intros tr. rewrite fanout_iff. split; intros [order [Hp ->]];
      exists order; (split; [exact Hp|]); [apply E | symmetry; apply E].
  - intros sched. apply fanout_iff.
    exists (completion_order sched lights).
    split; [apply completion_order_perm | reflexivity].
Qed.

(** X20: when the vendor lists at least one light, the script runs to its
    end whatever the writes answer, and its vendor calls are: the login and
    the listing; then one ON write per light, in some order; then, after
    the join, one OFF write per light, in some order; then one attribute
    read per light, in the order of the list.  No OFF write precedes an ON
    write, and no device that is not a light is called. *)
Theorem X20_script_switches_on_then_off all_devices sched_on sched_off :
  filter Server.is_light all_devices <> [] ->
  exists on off,
    Permutation on (filter Server.is_light all_devices) /\
    Permutation off (filter Server.is_light all_devices) /\
    script (Devices all_devices) sched_on sched_off
      = (Completed,
         [EvLogin; EvGetDevices]
           ++ map (fun d => EvWriteAction (getID d) 1 "01") on
           ++ map (fun d => EvWriteAction (getID d) 1 "00") off
           ++ map (fun d => EvGetAttributes (getID d))
                  (filter Server.is_light all_devices)).
Proof.
  intros Hl. unfold script.
  destruct all_devices as [|x l]; [contradiction Hl; reflexivity|].
  destruct (filter Server.is_light (x :: l)) as [|y lights] eqn:Hf;
    [contradiction Hl; reflexivity|].
  exists (completion_order sched_on (y :: lights)),
         (completion_order sched_off (y :: lights)).
  split; [apply completion_order_perm|]. split; [apply completion_order_perm|].
  unfold fanout_events.
  assert (E : forall ps order,
            flat_map (thread_events ps) order
            = map (fun d => EvWriteAction (getID d) 1
                              (if String.eqb ps "ON" then "01" else "00"))
                  order).
  { intros ps order. induction order as [|d order IH]; [reflexivity|].
    cbn [flat_map map]. rewrite IH, thread_events_value. reflexivity. }
  rewrite !E. cbn [String.eqb Ascii.eqb Bool.eqb].
  assert (R : forall order,
            flat_map read_state order
            = map (fun d => EvGetAttributes (getID d)) order).
  { induction order as [|d order IH]; [reflexivity|].
    cbn [flat_map map read_state app]. rewrite IH. reflexivity. }
  rewrite R. reflexivity.
Qed.

Lemma X20_script_switches_on_then_off_witness :
  exists on off,
    Permutation on (filter Server.is_light [Sample.lamp; Sample.fan; Sample.porch]) /\
    Permutation off (filter Server.is_light [Sample.lamp; Sample.fan; Sample.porch]) /\
    script (Devices [Sample.lamp; Sample.fan; Sample.porch]) [1]%nat []
      = (Completed,
         [EvLogin; EvGetDevices]
           ++ map (fun d => EvWriteAction (getID d) 1 "01") on
           ++ map (fun d => EvWriteAction (getID d) 1 "00") off
           ++ map (fun d => EvGetAttributes (getID d))
                  (filter Server.is_light [Sample.lamp; Sample.fan; Sample.porch])).
Proof.
  apply (X20_script_switches_on_then_off
           [Sample.lamp; Sample.fan; Sample.porch] [1]%nat []).
  vm_compute. discriminate.
Defined.

(** X21: how the script ends depends only on the vendor's answers to the
    login and the listing: it exits with code 1, before any write, exactly
    when the vendor lists no light (no device at all, or none of class
    "light" with a name); it reports and ends normally when the listing
    raises; the exception of the client constructor, raised outside the
    [try], is not caught; in every other case it completes. *)
Theorem X21_script_outcome v sched_on sched_off :
  (fst (script v sched_on sched_off) = Exited 1 <->
   exists all_devices,
     v = Devices all_devices /\ filter Server.is_light all_devices = []) /\
  (fst (script v sched_on sched_off) = Exited 1 ->
   snd (script v sched_on sched_off) = [EvLogin; EvGetDevices]) /\
  (fst (script v sched_on sched_off) = Completed <->
   exists all_devices,
     v = Devices all_devices /\ filter Server.is_light all_devices <> []) /\
  (forall e, fst (script v sched_on sched_off) = Reported e <-> v = ListFails e) /\
  (forall e, fst (script v sched_on sched_off) = Crashed e <-> v = LoginFails e).
Proof.
  unfold script. destruct v as [e|e|all_devices]; cbn [fst snd].
  - repeat split; try discriminate; try (intros [l [H _]]; discriminate H);
      intros H; injection H as ->; reflexivity.
  - repeat split; try discriminate; try (intros [l [H _]]; discriminate H);
      intros H; injection H as ->; reflexivity.
  - destruct all_devices as [|x l]; cbn [fst snd].
    + repeat split; try discriminate; eauto.
      intros [l [H Hne]]. injection H as <-. contradiction Hne. reflexivity.
    + destruct (filter Server.is_light (x :: l)) as [|y lights] eqn:Hf;
        cbn [fst snd].
      * repeat split; try discriminate; eauto.
        intros [l' [H Hne]]. injection H as <-. contradiction.
      * repeat split; try discriminate.
        -- intros [l' [H He]]. injection H as <-. rewrite Hf in He.
           discriminate He.
        -- intros _. exists (x :: l). rewrite Hf. split; [reflexivity|].
           discriminate.
Qed.

(** X22: the script and the server agree on the power write for the states
    "ON" and "OFF": the worker of the server, asked for that action alone,
    reads the attributes and then makes the very write of the script's
    [control_device].  They differ on every other state: the script's
    [else] branch writes ["00"] (so that "on" in lower case switches the
    light off), and its return value is true exactly when that one write
    is answered. *)
Theorem X22_script_and_server_power_writes d power_state device_name :
  (power_state = "ON" \/ power_state = "OFF" ->
   Device.control_device_events d (Some power_state) None None
     = EvGetAttributes (getID d)
       :: snd (control_device d power_state device_name)) /\
  (power_state <> "ON" ->
   snd (control_device d power_state device_name)
     = [EvWriteAction (getID d) 1 "00"]) /\
  (fst (control_device d power_state device_name) = true <->
   forall id i v,
     In (EvWriteAction id i v) (snd (control_device d power_state device_name)) ->
     writeAction d i v = None).
Proof.
  split; [|split].
  - intros [->| ->]; unfold control_device; cbn [String.eqb Ascii.eqb Bool.eqb snd];
      DeviceFacts.unfold_run; cbn; DeviceFacts.split_run; reflexivity.
  - intros H. apply String.eqb_neq in H. unfold control_device. rewrite H.
    reflexivity.
  - unfold control_device. destruct (String.eqb power_state "ON"); cbn [fst snd].
    + destruct (writeAction d 1 "01") eqn:E; split; try discriminate.
      * intros H. specialize (H _ _ _ (or_introl eq_refl)). congruence.
      * intros _ id i v [H|[]]. injection H as _ <- <-. exact E.
      * reflexivity.
    + destruct (writeAction d 1 "00") eqn:E; split; try discriminate.
      * intros H. specialize (H _ _ _ (or_introl eq_refl)). congruence.
      * intros _ id i v [H|[]]. injection H as _ <- <-. exact E.
      * reflexivity.
Qed.

End ScriptFacts.
